(** * Workflow controller of the document unifier (static/app.js)

    The repository ships two variants of the browser-side controller:
    - variant 1 works with a fixed whitelist of titles and knows three
      sources (folder, upload, upload_dir);
    - variant 2 asks the server for the titles of a heading level and
      knows two sources (folder, upload).

    Each handler of the script is an [async] function.  It is embedded
    here as the part that runs synchronously when the handler is called
    (up to its first [await]) and the continuation that runs once the
    awaited request has settled.  Module-level variables and the DOM
    elements the handlers touch form an explicit state.

    Strings are byte strings holding UTF-8.  The page is assumed to
    contain the elements the script looks up ([#log], [#folder], ...,
    and one checked radio button named [mode]).  The preview modal
    ([showPreview]) touches none of the state below and is left out. *)

From Stdlib Require Import ZArith String Ascii List Lia Bool.
From Stdlib Require Import DecimalString DecimalPos DecimalZ.
From stdpp Require Import gmap strings list fin_maps.
Import ListNotations.

Open Scope string_scope.
Open Scope Z_scope.

(** ** Strings and numbers of the host language *)

(** [String(n)] for an integer [n]. *)
Definition show_Z (z : Z) : string := NilZero.string_of_int (Z.to_int z).

Definition show_nat (n : nat) : string := show_Z (Z.of_nat n).

Definition nl : string := String (ascii_of_nat 10) "".

Definition code (a : ascii) : N := N_of_ascii a.

(** White space and line terminators of ECMAScript, as UTF-8 sequences of
    one, two and three bytes. *)
Definition ws1 (a : N) : bool :=
  ((9 <=? a) && (a <=? 13) || (a =? 32))%N.

Definition ws2 (a b : N) : bool := ((a =? 194) && (b =? 160))%N.

Definition ws3 (a b c : N) : bool :=
  (  (a =? 225) && (b =? 154) && (c =? 128)
  || (a =? 226) && (b =? 128) && ((128 <=? c) && (c <=? 138))
  || (a =? 226) && (b =? 128) && ((c =? 168) || (c =? 169) || (c =? 175))
  || (a =? 226) && (b =? 129) && (c =? 159)
  || (a =? 227) && (b =? 128) && (c =? 128)
  || (a =? 239) && (b =? 187) && (c =? 191))%N.

(** Drops leading white space; with [back] the list is a reversed string
    and the byte sequences are matched back to front. *)
Fixpoint strip (back : bool) (l : list ascii) : list ascii :=
  match l with
  | [] => []
  | a :: r1 =>
    if ws1 (code a) then strip back r1 else
    match r1 with
    | [] => l
    | b :: r2 =>
      if (if back then ws2 (code b) (code a) else ws2 (code a) (code b))
      then strip back r2 else
      match r2 with
      | [] => l
      | c :: r3 =>
        if (if back then ws3 (code c) (code b) (code a)
            else ws3 (code a) (code b) (code c))
        then strip back r3 else l
      end
    end
  end.

(** [String.prototype.trim]. *)
Definition trim (s : string) : string :=
  string_of_list_ascii
    (rev (strip true (rev (strip false (list_ascii_of_string s))))).

Definition lower_ascii (a : ascii) : ascii :=
  let n := code a in
  if ((65 <=? n) && (n <=? 90))%N then ascii_of_N (n + 32) else a.

(** [String.prototype.toLowerCase]; only the letters A-Z matter for the
    comparison with an ASCII suffix, no other character lowers into
    [".docx"]. *)
Fixpoint toLowerCase (s : string) : string :=
  match s with
  | EmptyString => EmptyString
  | String a r => String (lower_ascii a) (toLowerCase r)
  end.

(** [String.prototype.endsWith]. *)
Definition endsWith (s suffix : string) : bool :=
  String.prefix (string_of_list_ascii (rev (list_ascii_of_string suffix)))
                (string_of_list_ascii (rev (list_ascii_of_string s))).

Definition is_digit (a : ascii) : bool :=
  ((48 <=? code a) && (code a <=? 57))%N.

Fixpoint digits_value (acc : option Z) (l : list ascii) : option Z :=
  match l with
  | a :: r =>
    if is_digit a
    then digits_value
           (Some (10 * default 0 acc + Z.of_N (code a - 48))) r
    else acc
  | [] => acc
  end.

(** [parseInt(s, 10)]; [None] stands for [NaN]. *)
Definition parseInt (s : string) : option Z :=
  match strip false (list_ascii_of_string s) with
  | a :: r =>
    if (code a =? 45)%N then Z.opp <$> digits_value None r
    else if (code a =? 43)%N then digits_value None r
    else digits_value None (a :: r)
  | [] => None
  end.

(** ** Values *)

(** What a token variable can hold. *)
Inductive jsval :=
  | JsUndefined
  | JsNull
  | JsStr (s : string).

Definition truthy (v : jsval) : bool :=
  match v with
  | JsStr s => negb (String.eqb s "")
  | _ => false
  end.

(** [a || b] on tokens. *)
Definition js_or (a b : jsval) : jsval := if truthy a then a else b.

(** A value inside a template literal. *)
Definition display (v : jsval) : string :=
  match v with
  | JsUndefined => "undefined"
  | JsNull => "null"
  | JsStr s => s
  end.

Definition display_count (c : option Z) : string :=
  match c with
  | Some z => show_Z z
  | None => "undefined"
  end.

(** [c || 0] on an optional number. *)
Definition count_or_zero (c : option Z) : Z := default 0 c.

(** [(js.error || res.status)] turned into text by the concatenation. *)
Definition error_or_status (e : option string) (status : Z) : string :=
  match e with
  | Some m => if String.eqb m "" then show_Z status else m
  | None => show_Z status
  end.

(** JSON values the requests carry. *)
Inductive json :=
  | JNull
  | JBool (b : bool)
  | JNum (z : Z)
  | JString (s : string)
  | JStrings (l : list string).

Definition json_of_jsval (v : jsval) : json :=
  match v with
  | JsStr s => JString s
  | _ => JNull
  end.

Definition json_of_number (n : option Z) : json :=
  match n with
  | Some z => JNum z
  | None => JNull
  end.

(** ** Server interface *)

(** A selected file: its name and its content. *)
Record file := { file_name : string; file_data : string }.

(** One entry of [files_meta]. *)
Record file_meta := {
  fm_name : string;
  fm_count : Z;
  fm_titles : list string
}.

(** The JSON object of a scan or error reply; an absent field is [None]
    (or [JsUndefined]), [js_ok] is the truth value of the field [ok]. *)
Record reply_json := {
  js_ok : bool;
  js_error : option string;
  js_token : jsval;
  js_count : option Z;
  js_files_meta : option (list file_meta);
  js_titles : option (list string)
}.

(** What [fetch] resolves to; [json_body] is [None] when [res.json()]
    rejects. *)
Record response := {
  status : Z;
  statusText : string;
  json_body : option reply_json
}.

Definition res_ok (r : response) : bool :=
  (200 <=? status r) && (status r <=? 299).

(** The awaited [fetch]. *)
Inductive fetched :=
  | Rejected
  | Resolved (r : response).

Inductive form_value :=
  | FdText (s : string)
  | FdFile (f : file).

(** The body of a POST: a JSON object or a [FormData]. *)
Inductive req_body :=
  | JsonBody (o : gmap string json)
  | FormBody (fd : list (string * form_value)).

Record request := { url : string; body : req_body }.

(** [fd.append("files", f)] for each file. *)
Definition append_files (fs : list file) : list (string * form_value) :=
  map (fun f => ("files", FdFile f)) fs.

Definition form_files (fd : list (string * form_value)) : list file :=
  flat_map (fun e => match e with
                     | (k, FdFile f) => if String.eqb k "files" then [f] else []
                     | _ => []
                     end) fd.

Definition form_texts (key : string) (fd : list (string * form_value))
  : list string :=
  flat_map (fun e => match e with
                     | (k, FdText t) => if String.eqb k key then [t] else []
                     | _ => []
                     end) fd.

(** ** Page elements *)

(** An [<option>] of a multiple select. *)
Record option_el := { value : string; selected : bool }.

Definition make_option (t : string) : option_el :=
  {| value := t; selected := false |}.

(** [sel.selectedIndex = -1] and the loop [opt.selected = false]. *)
Definition deselect_all (os : list option_el) : list option_el :=
  map (fun o => {| value := value o; selected := false |}) os.

(** [Array.from(sel.selectedOptions).map(o => o.value)]. *)
Definition selected_values (os : list option_el) : list string :=
  map value (List.filter selected os).

(** A row of the files table: the placeholder or a file with its name
    cell, its count and the class of the count badge (the name is taken
    as text; the preview button of the row is left out). *)
Inductive tr :=
  | TrNoData
  | TrFile (name : string) (count : Z) (badge_class : string).

Definition file_row (f : file_meta) : tr :=
  TrFile (fm_name f) (fm_count f)
         (if 0 <? fm_count f then "bg-primary" else "bg-secondary").

(** The rows [drawFilesTable] leaves in the table body. *)
Definition table_rows (filesMeta : list file_meta) : list tr :=
  match filesMeta with
  | [] => [TrNoData]
  | _ => map file_row filesMeta
  end.


Definition archivos_text (filesCount : Z) : string :=
  show_Z filesCount +:+ " archivo" +:+ (if filesCount =? 1 then "" else "s").

Definition titulos_text (titlesCount : Z) : string :=
  show_Z titlesCount +:+ " título" +:+ (if titlesCount =? 1 then "" else "s").

Definition zip_name (mode : string) : string :=
  if String.eqb mode "unificado" then "unificado.zip" else "por_titulo.zip".

(** How a handler call ends before or after its awaits. *)
Inductive completion (S : Type) :=
  | Returned (s : S)
  | Thrown (s : S).
Arguments Returned {S} s.
Arguments Thrown {S} s.

Definition final {S : Type} (c : completion S) : S :=
  match c with Returned s | Thrown s => s end.

(** [!l.length] *)
Definition is_empty {A : Type} (l : list A) : bool :=
  match l with
  | [] => true
  | _ :: _ => false
  end.

(** The user picks options of a multiple select, position by position. *)
Fixpoint pick (flags : list bool) (os : list option_el) : list option_el :=
  match os, flags with
  | o :: os', b :: flags' =>
    {| value := value o; selected := b |} :: pick flags' os'
  | _, _ => os
  end.

(** Sequencing of statements: [s |> f |> g] runs [f], then [g]. *)
Notation "s |> f" := (f s) (at level 71, left associativity, only parsing).

(** * Variant 1: fixed whitelist, three sources *)

Module V1.

(** The fixed list of titles. *)
Definition TITULOS_WHITELIST : list string := [
  "1. Introducción​";
  "2. Diagnóstico estratégico";
  "3. Misión, visión y valores de la carrera";
  "01. Plan de formación integral del estudiante";
  "06. Plan de admisión, acogida y acompañamiento académico de estudiantes";
  "23. Plan de seguimiento y mejora de indicadores del perfil docente";
  "25. Plan de formación integral del docente";
  "26. Plan de mejora del proceso de evaluación integral docente ";
  "03. Plan implantación del marco de competencias UTPL";
  "04. Plan de prospectiva y creación de nueva oferta";
  "07. Plan de acciones curriculares para el fortalecimiento de las competencias genéricas";
  "11. Plan de fortalecimiento de prácticas preprofesionales y proyectos de vinculación";
  "12. Plan de fortalecimiento de criterios para la evaluación de la calidad de carreras y programas académicos";
  "13. Plan de acciones curriculares para el fortalecimiento de la empleabilidad del graduado UTPL";
  "16. Plan de mejora del proceso de elaboración y seguimiento de planes docentes";
  "18. Plan de mejora de ambientes de aprendizaje";
  "19. Plan de mejora de evaluación de los aprendizajes";
  "20. Plan de mejora del proceso de integración curricular";
  "21. Plan de mejora del proceso de titulación";
  "22. Plan de seguimiento y mejora de la labor tutorial";
  "08. Plan de internacionalización del currículo";
  "24. Plan de intervención de personal académico en territorio";
  "05. Plan de acciones académicas orientadas a la comunicación y promoción de la oferta";
  "09. Plan de innovación educativa";
  "10. Plan de implantación de metodologías activas en el currículo";
  "28. Plan de formación de líderes académicos ";
  "29. Plan de posicionamiento institucional en innovación educativa";
  "30. Plan de investigación sobre innovación educativa, EaD, MP"
].

(** [lastSource]: folder | upload | upload_dir. *)
Inductive source := SrcFolder | SrcUpload | SrcUploadDir.

Definition source_name (x : source) : string :=
  match x with
  | SrcFolder => "folder"
  | SrcUpload => "upload"
  | SrcUploadDir => "upload_dir"
  end.

(** The module-level variables. *)
Record vars := {
  uploadToken : jsval;
  uploadDirToken : jsval;
  lastSource : source;
  lastFilesMeta : list file_meta
}.

(** The elements the handlers write: [#log], [#badge-archivos], the
    options of [#whitelist], the body [#files-table], and the downloads
    started through a temporary link. *)
Record page := {
  log_text : string;
  badge_archivos : string;
  whitelist : list option_el;
  files_table : list tr;
  downloads : list string
}.

(** The inputs the user fills: [#folder], [#include_subs], [#use_all],
    the checked [mode] radio, [#files] and [#folderInput]. *)
Record form := {
  folder : string;
  include_subs : bool;
  use_all : bool;
  mode : string;
  files : list file;
  folderInput : list file
}.

Record state := { mem : vars; doc : page; inp : form }.

Definition set_uploadToken (v : jsval) (s : state) : state :=
  {| mem := {| uploadToken := v;
               uploadDirToken := uploadDirToken (mem s);
               lastSource := lastSource (mem s);
               lastFilesMeta := lastFilesMeta (mem s) |};
     doc := doc s; inp := inp s |}.

Definition set_uploadDirToken (v : jsval) (s : state) : state :=
  {| mem := {| uploadToken := uploadToken (mem s);
               uploadDirToken := v;
               lastSource := lastSource (mem s);
               lastFilesMeta := lastFilesMeta (mem s) |};
     doc := doc s; inp := inp s |}.

Definition set_lastSource (x : source) (s : state) : state :=
  {| mem := {| uploadToken := uploadToken (mem s);
               uploadDirToken := uploadDirToken (mem s);
               lastSource := x;
               lastFilesMeta := lastFilesMeta (mem s) |};
     doc := doc s; inp := inp s |}.

Definition set_lastFilesMeta (l : list file_meta) (s : state) : state :=
  {| mem := {| uploadToken := uploadToken (mem s);
               uploadDirToken := uploadDirToken (mem s);
               lastSource := lastSource (mem s);
               lastFilesMeta := l |};
     doc := doc s; inp := inp s |}.

Definition set_log_text (t : string) (s : state) : state :=
  {| mem := mem s;
     doc := {| log_text := t;
               badge_archivos := badge_archivos (doc s);
               whitelist := whitelist (doc s);
               files_table := files_table (doc s);
               downloads := downloads (doc s) |};
     inp := inp s |}.

Definition set_badge_archivos (t : string) (s : state) : state :=
  {| mem := mem s;
     doc := {| log_text := log_text (doc s);
               badge_archivos := t;
               whitelist := whitelist (doc s);
               files_table := files_table (doc s);
               downloads := downloads (doc s) |};
     inp := inp s |}.

Definition set_whitelist (os : list option_el) (s : state) : state :=
  {| mem := mem s;
     doc := {| log_text := log_text (doc s);
               badge_archivos := badge_archivos (doc s);
               whitelist := os;
               files_table := files_table (doc s);
               downloads := downloads (doc s) |};
     inp := inp s |}.

Definition set_files_table (t : list tr) (s : state) : state :=
  {| mem := mem s;
     doc := {| log_text := log_text (doc s);
               badge_archivos := badge_archivos (doc s);
               whitelist := whitelist (doc s);
               files_table := t;
               downloads := downloads (doc s) |};
     inp := inp s |}.

Definition set_downloads (l : list string) (s : state) : state :=
  {| mem := mem s;
     doc := {| log_text := log_text (doc s);
               badge_archivos := badge_archivos (doc s);
               whitelist := whitelist (doc s);
               files_table := files_table (doc s);
               downloads := l |};
     inp := inp s |}.

Definition set_inp (f : form) (s : state) : state :=
  {| mem := mem s; doc := doc s; inp := f |}.

(** [log(m)]: appends the line to [#log]. *)
Definition log (m : string) (s : state) : state :=
  set_log_text (log_text (doc s) +:+ m +:+ nl) s.

Definition setBadges (filesCount : Z) (s : state) : state :=
  set_badge_archivos (archivos_text filesCount) s.

Definition fillWhitelist (s : state) : state :=
  set_whitelist (map make_option TITULOS_WHITELIST) s.

Definition drawFilesTable (filesMeta : list file_meta) (s : state) : state :=
  set_files_table (table_rows filesMeta) s.

(** What runs after the awaits of a handler; [KMerge] keeps the local
    [mode] of the call. *)
Inductive cont :=
  | KScanFolder
  | KScanUpload
  | KScanUploadDir
  | KMerge (mode : string)
  | KCleanup.

(** A handler call up to its first [await]: it returned without a
    request, or it sent one and waits for it. *)
Inductive started :=
  | Finished (s : state)
  | Awaiting (s : state) (rq : request) (k : cont).

Definition whitelist_entries : list (string * form_value) :=
  map (fun t => ("whitelist[]", FdText t)) TITULOS_WHITELIST.

Definition scanFolder (s : state) : started :=
  let s := s |> set_lastSource SrcFolder
             |> set_uploadToken JsNull |> set_uploadDirToken JsNull in
  let s := set_whitelist (deselect_all (whitelist (doc s))) s in
  let s := s |> drawFilesTable [] |> setBadges 0 in
  let s := log "Escaneando carpeta en servidor..." s in
  let body : gmap string json :=
    {[ "folder" := JString (trim (folder (inp s)));
       "include_subs" := JBool (include_subs (inp s));
       "whitelist" := JStrings TITULOS_WHITELIST ]} in
  Awaiting s {| url := "/api/scan-folder"; body := JsonBody body |}
           KScanFolder.

Definition scanFolder_k (o : fetched) (s : state) : completion state :=
  match o with
  | Rejected => Thrown s
  | Resolved res =>
    match json_body res with
    | None => Thrown s
    | Some js =>
      if negb (js_ok js)
      then Returned
             (log ("ERROR: " +:+ error_or_status (js_error js) (status res)) s)
      else
        let s := set_lastFilesMeta (default [] (js_files_meta js)) s in
        let s := setBadges (count_or_zero (js_count js)) s in
        let s := drawFilesTable (lastFilesMeta (mem s)) s in
        Returned
          (log ("Archivos: " +:+ display_count (js_count js)
                +:+ " | títulos totales en whitelist: "
                +:+ show_nat (length TITULOS_WHITELIST)) s)
    end
  end.

Definition scanUpload (s : state) : started :=
  let s := s |> set_lastSource SrcUpload |> set_uploadDirToken JsNull in
  let s := set_whitelist (deselect_all (whitelist (doc s))) s in
  let s := s |> drawFilesTable [] |> setBadges 0 in
  let files := files (inp s) in
  match files with
  | [] => Finished (log "Selecciona .docx primero." s)
  | _ =>
    let s := log ("Subiendo " +:+ show_nat (length files)
                  +:+ " archivo(s)...") s in
    let fd := (whitelist_entries ++ append_files files)%list in
    Awaiting s {| url := "/api/scan-upload"; body := FormBody fd |}
             KScanUpload
  end.

Definition scanUpload_k (o : fetched) (s : state) : completion state :=
  match o with
  | Rejected => Thrown s
  | Resolved res =>
    match json_body res with
    | None => Thrown s
    | Some js =>
      if negb (js_ok js)
      then Returned
             (log ("ERROR: " +:+ error_or_status (js_error js) (status res)) s)
      else
        let s := set_uploadToken (js_token js) s in
        let s := set_lastFilesMeta (default [] (js_files_meta js)) s in
        let s := setBadges (count_or_zero (js_count js)) s in
        let s := drawFilesTable (lastFilesMeta (mem s)) s in
        Returned
          (log ("Token: " +:+ display (uploadToken (mem s))
                +:+ " | Archivos: " +:+ display_count (js_count js)) s)
    end
  end.

Definition is_docx (f : file) : bool :=
  endsWith (toLowerCase (file_name f)) ".docx".

Definition scanUploadDir (s : state) : started :=
  let s := s |> set_lastSource SrcUploadDir |> set_uploadToken JsNull in
  let s := set_whitelist (deselect_all (whitelist (doc s))) s in
  let s := s |> drawFilesTable [] |> setBadges 0 in
  let files := folderInput (inp s) in
  match files with
  | [] => Finished (log "Selecciona una carpeta con .docx." s)
  | _ =>
    let s := log ("Subiendo carpeta con " +:+ show_nat (length files)
                  +:+ " archivo(s)...") s in
    let fd :=
      (whitelist_entries ++ append_files (List.filter is_docx files))%list in
    Awaiting s {| url := "/api/scan-upload"; body := FormBody fd |}
             KScanUploadDir
  end.

Definition scanUploadDir_k (o : fetched) (s : state) : completion state :=
  match o with
  | Rejected => Thrown s
  | Resolved res =>
    match json_body res with
    | None => Thrown s
    | Some js =>
      if negb (js_ok js)
      then Returned
             (log ("ERROR: " +:+ error_or_status (js_error js) (status res)) s)
      else
        let s := set_uploadDirToken (js_token js) s in
        let s := set_lastFilesMeta (default [] (js_files_meta js)) s in
        let s := setBadges (count_or_zero (js_count js)) s in
        let s := drawFilesTable (lastFilesMeta (mem s)) s in
        Returned
          (log ("Token: " +:+ display (uploadDirToken (mem s))
                +:+ " | Archivos: " +:+ display_count (js_count js)) s)
    end
  end.

Definition merge_request (payload : gmap string json) : request :=
  {| url := "/api/merge"; body := JsonBody payload |}.

Definition mergeNow (s : state) : started :=
  let mode := mode (inp s) in
  let use_all := use_all (inp s) in
  let chosen := selected_values (whitelist (doc s)) in
  if negb use_all && is_empty chosen
  then Finished (log "Selecciona al menos un título o marca 'Usar todos'." s)
  else
    let selected := if use_all then TITULOS_WHITELIST else chosen in
    let payload : gmap string json :=
      {[ "source" := JString (source_name (lastSource (mem s)));
         "mode" := JString mode;
         "titles" := JStrings selected ]} in
    let send (payload : gmap string json) :=
      Awaiting (log "Generando ZIP..." s) (merge_request payload)
               (KMerge mode) in
    match lastSource (mem s) with
    | SrcFolder =>
      let folder := trim (folder (inp s)) in
      if String.eqb folder ""
      then Finished (log "Ingresa la ruta de la carpeta." s)
      else send (<["include_subs" := JBool (include_subs (inp s))]>
                   (<["folder" := JString folder]> payload))
    | SrcUpload =>
      if negb (truthy (uploadToken (mem s)))
      then Finished (log "Primero sube y escanea archivos." s)
      else send (<["token" := json_of_jsval (uploadToken (mem s))]> payload)
    | SrcUploadDir =>
      if negb (truthy (uploadDirToken (mem s)))
      then Finished (log "Primero sube y escanea la carpeta." s)
      else send (<["token" := json_of_jsval (uploadDirToken (mem s))]> payload)
    end.

(** After the request: the error of a reply that is not ok (the status
    text when its body is not JSON), or the download of the ZIP, whose
    body is taken to be readable. *)
Definition mergeNow_k (mode : string) (o : fetched) (s : state)
  : completion state :=
  match o with
  | Rejected => Thrown s
  | Resolved res =>
    if negb (res_ok res)
    then
      let error := match json_body res with
                   | Some js => js_error js
                   | None => Some (statusText res)
                   end in
      Returned (log ("ERROR: " +:+ error_or_status error (status res)) s)
    else
      let s := set_downloads (downloads (doc s) ++ [zip_name mode])%list s in
      Returned (log "Descarga iniciada." s)
  end.

Definition cleanup (s : state) : started :=
  let token := js_or (uploadToken (mem s)) (uploadDirToken (mem s)) in
  if negb (truthy token)
  then Finished (log "No hay subidas por limpiar." s)
  else
    let body : gmap string json := {[ "token" := json_of_jsval token ]} in
    Awaiting s {| url := "/api/cleanup"; body := JsonBody body |} KCleanup.

Definition cleanup_k (o : fetched) (s : state) : completion state :=
  match o with
  | Rejected => Thrown s
  | Resolved _ =>
    let s := s |> set_uploadToken JsNull |> set_uploadDirToken JsNull in
    Returned (log "Subidas temporales limpiadas." s)
  end.

(** The [change] listener of [#use_all]. *)
Definition use_all_change (checked : bool) (s : state) : state :=
  if checked then set_whitelist (deselect_all (whitelist (doc s))) s else s.

(** ** The page as an event loop *)

Inductive handler := ScanFolder | ScanUpload | ScanUploadDir | MergeNow | Cleanup.

Definition call (h : handler) : state -> started :=
  match h with
  | ScanFolder => scanFolder
  | ScanUpload => scanUpload
  | ScanUploadDir => scanUploadDir
  | MergeNow => mergeNow
  | Cleanup => cleanup
  end.

Definition resume (k : cont) : fetched -> state -> completion state :=
  match k with
  | KScanFolder => scanFolder_k
  | KScanUpload => scanUpload_k
  | KScanUploadDir => scanUploadDir_k
  | KMerge mode => mergeNow_k mode
  | KCleanup => cleanup_k
  end.

(** A handler whose request is answered before anything else happens. *)
Definition atomic (h : handler) (o : fetched) (s : state) : state :=
  match call h s with
  | Finished s' => s'
  | Awaiting s' _ k => final (resume k o s')
  end.

(** The state, the continuations waiting for their request, and every
    request sent so far. *)
Record sys := {
  now : state;
  inflight : list cont;
  sent : list request
}.

(** What can happen: the user fills inputs (the check box [#use_all]
    apart), picks options, toggles [#use_all], clicks a button, or the
    [i]-th request in flight settles. *)
Inductive event :=
  | Fill (f : form)
  | Pick (flags : list bool)
  | ToggleUseAll (checked : bool)
  | Click (h : handler)
  | Settle (i : nat) (o : fetched).

Definition fill (f : form) (s : state) : state :=
  set_inp {| folder := folder f; include_subs := include_subs f;
             use_all := use_all (inp s); mode := mode f;
             files := files f; folderInput := folderInput f |} s.

Definition check_use_all (b : bool) (s : state) : state :=
  set_inp {| folder := folder (inp s); include_subs := include_subs (inp s);
             use_all := b; mode := mode (inp s);
             files := files (inp s); folderInput := folderInput (inp s) |} s.

Definition step (e : event) (w : sys) : sys :=
  match e with
  | Fill f =>
    {| now := fill f (now w); inflight := inflight w; sent := sent w |}
  | Pick flags =>
    {| now := set_whitelist (pick flags (whitelist (doc (now w)))) (now w);
       inflight := inflight w; sent := sent w |}
  | ToggleUseAll b =>
    {| now := use_all_change b (check_use_all b (now w));
       inflight := inflight w; sent := sent w |}
  | Click h =>
    match call h (now w) with
    | Finished s => {| now := s; inflight := inflight w; sent := sent w |}
    | Awaiting s rq k =>
      {| now := s; inflight := (inflight w ++ [k])%list;
         sent := (sent w ++ [rq])%list |}
    end
  | Settle i o =>
    match inflight w !! i with
    | Some k =>
      {| now := final (resume k o (now w));
         inflight := delete i (inflight w); sent := sent w |}
    | None => w
    end
  end.

Definition run (es : list event) (w : sys) : sys :=
  fold_left (fun w e => step e w) es w.

(** The page once [DOMContentLoaded] has fired. *)
Definition boot (d : page) (f : form) : sys :=
  {| now := fillWhitelist
              {| mem := {| uploadToken := JsNull; uploadDirToken := JsNull;
                           lastSource := SrcFolder; lastFilesMeta := [] |};
                 doc := d; inp := f |};
     inflight := []; sent := [] |}.

(** No button is clicked while a request is in flight. *)
Fixpoint no_overlap (es : list event) (w : sys) : bool :=
  match es with
  | [] => true
  | e :: es' =>
    match e with
    | Click _ => is_empty (inflight w)
    | _ => true
    end && no_overlap es' (step e w)
  end.

(** At most one of the two tokens is not null. *)
Definition exclusive (s : state) : Prop :=
  uploadToken (mem s) = JsNull \/ uploadDirToken (mem s) = JsNull.

End V1.

(** * Variant 2: titles of a heading level, two sources *)

Module V2.

(** [lastSource]: folder | upload. *)
Inductive source := SrcFolder | SrcUpload.

Definition source_name (x : source) : string :=
  match x with
  | SrcFolder => "folder"
  | SrcUpload => "upload"
  end.

(** The module-level variables. *)
Record vars := {
  uploadToken : jsval;
  lastSource : source;
  lastFilesMeta : list file_meta
}.

(** The elements the handlers write: [#log], the two badges, the options
    of [#titles], the body [#files-table], and the downloads started. *)
Record page := {
  log_text : string;
  badge_archivos : string;
  badge_titulos : string;
  titles : list option_el;
  files_table : list tr;
  downloads : list string
}.

(** The inputs the user fills: [#folder], [#include_subs], [#use_all],
    the checked [mode] radio, [#level] and [#files]. *)
Record form := {
  folder : string;
  include_subs : bool;
  use_all : bool;
  mode : string;
  level : string;
  files : list file
}.

Record state := { mem : vars; doc : page; inp : form }.

Definition set_uploadToken (v : jsval) (s : state) : state :=
  {| mem := {| uploadToken := v;
               lastSource := lastSource (mem s);
               lastFilesMeta := lastFilesMeta (mem s) |};
     doc := doc s; inp := inp s |}.

Definition set_lastSource (x : source) (s : state) : state :=
  {| mem := {| uploadToken := uploadToken (mem s);
               lastSource := x;
               lastFilesMeta := lastFilesMeta (mem s) |};
     doc := doc s; inp := inp s |}.

Definition set_lastFilesMeta (l : list file_meta) (s : state) : state :=
  {| mem := {| uploadToken := uploadToken (mem s);
               lastSource := lastSource (mem s);
               lastFilesMeta := l |};
     doc := doc s; inp := inp s |}.

Definition set_log_text (t : string) (s : state) : state :=
  {| mem := mem s;
     doc := {| log_text := t;
               badge_archivos := badge_archivos (doc s);
               badge_titulos := badge_titulos (doc s);
               titles := titles (doc s);
               files_table := files_table (doc s);
               downloads := downloads (doc s) |};
     inp := inp s |}.

Definition set_badges (a t : string) (s : state) : state :=
  {| mem := mem s;
     doc := {| log_text := log_text (doc s);
               badge_archivos := a;
               badge_titulos := t;
               titles := titles (doc s);
               files_table := files_table (doc s);
               downloads := downloads (doc s) |};
     inp := inp s |}.

Definition set_titles (os : list option_el) (s : state) : state :=
  {| mem := mem s;
     doc := {| log_text := log_text (doc s);
               badge_archivos := badge_archivos (doc s);
               badge_titulos := badge_titulos (doc s);
               titles := os;
               files_table := files_table (doc s);
               downloads := downloads (doc s) |};
     inp := inp s |}.

Definition set_files_table (t : list tr) (s : state) : state :=
  {| mem := mem s;
     doc := {| log_text := log_text (doc s);
               badge_archivos := badge_archivos (doc s);
               badge_titulos := badge_titulos (doc s);
               titles := titles (doc s);
               files_table := t;
               downloads := downloads (doc s) |};
     inp := inp s |}.

Definition set_downloads (l : list string) (s : state) : state :=
  {| mem := mem s;
     doc := {| log_text := log_text (doc s);
               badge_archivos := badge_archivos (doc s);
               badge_titulos := badge_titulos (doc s);
               titles := titles (doc s);
               files_table := files_table (doc s);
               downloads := l |};
     inp := inp s |}.

Definition set_inp (f : form) (s : state) : state :=
  {| mem := mem s; doc := doc s; inp := f |}.

(** [log(m)]: appends the line to [#log]. *)
Definition log (m : string) (s : state) : state :=
  set_log_text (log_text (doc s) +:+ m +:+ nl) s.

Definition setBadges (filesCount titlesCount : Z) (s : state) : state :=
  set_badges (archivos_text filesCount) (titulos_text titlesCount) s.

Definition fillTitles (ts : list string) (s : state) : state :=
  let s := set_titles (map make_option ts) s in
  setBadges (Z.of_nat (length (lastFilesMeta (mem s))))
            (Z.of_nat (length ts)) s.

Definition drawFilesTable (filesMeta : list file_meta) (s : state) : state :=
  set_files_table (table_rows filesMeta) s.

(** What runs after the awaits of a handler; [KMerge] keeps the local
    [mode] of the call. *)
Inductive cont :=
  | KScanFolder
  | KScanUpload
  | KMerge (mode : string)
  | KCleanup.

Inductive started :=
  | Finished (s : state)
  | Awaiting (s : state) (rq : request) (k : cont).

Definition scanFolder (s : state) : started :=
  let s := s |> set_lastSource SrcFolder |> set_uploadToken JsNull in
  let s := set_titles [] s in
  let s := s |> drawFilesTable [] |> setBadges 0 0 in
  let s := log "Escaneando carpeta..." s in
  let body : gmap string json :=
    {[ "folder" := JString (trim (folder (inp s)));
       "include_subs" := JBool (include_subs (inp s));
       "level" := json_of_number (parseInt (level (inp s))) ]} in
  Awaiting s {| url := "/api/scan-folder"; body := JsonBody body |}
           KScanFolder.

(** The log line reads [js.titles.length] before [js.titles || []]
    guards it: a reply without titles makes the handler throw there. *)
Definition scanFolder_k (o : fetched) (s : state) : completion state :=
  match o with
  | Rejected => Thrown s
  | Resolved res =>
    match json_body res with
    | None => Thrown s
    | Some js =>
      if negb (js_ok js)
      then Returned
             (log ("ERROR: " +:+ error_or_status (js_error js) (status res)) s)
      else
        let s := set_lastFilesMeta (default [] (js_files_meta js)) s in
        match js_titles js with
        | None => Thrown s
        | Some ts =>
          let s := log ("Archivos: " +:+ display_count (js_count js)
                        +:+ " | Títulos (únicos, nivel) : "
                        +:+ show_nat (length ts)) s in
          let s := fillTitles ts s in
          Returned (drawFilesTable (lastFilesMeta (mem s)) s)
        end
    end
  end.

Definition scanUpload (s : state) : started :=
  let s := set_lastSource SrcUpload s in
  let s := set_titles [] s in
  let s := s |> drawFilesTable [] |> setBadges 0 0 in
  let files := files (inp s) in
  match files with
  | [] => Finished (log "Selecciona .docx primero." s)
  | _ =>
    let s := log ("Subiendo " +:+ show_nat (length files)
                  +:+ " archivo(s)...") s in
    let fd := (("level", FdText (level (inp s))) :: append_files files) in
    Awaiting s {| url := "/api/scan-upload"; body := FormBody fd |}
             KScanUpload
  end.

Definition scanUpload_k (o : fetched) (s : state) : completion state :=
  match o with
  | Rejected => Thrown s
  | Resolved res =>
    match json_body res with
    | None => Thrown s
    | Some js =>
      if negb (js_ok js)
      then Returned
             (log ("ERROR: " +:+ error_or_status (js_error js) (status res)) s)
      else
        let s := set_uploadToken (js_token js) s in
        let s := set_lastFilesMeta (default [] (js_files_meta js)) s in
        match js_titles js with
        | None => Thrown s
        | Some ts =>
          let s := log ("Token: " +:+ display (uploadToken (mem s))
                        +:+ " | Archivos: " +:+ display_count (js_count js)
                        +:+ " | Títulos (únicos): "
                        +:+ show_nat (length ts)) s in
          let s := fillTitles ts s in
          Returned (drawFilesTable (lastFilesMeta (mem s)) s)
        end
    end
  end.

Definition merge_request (payload : gmap string json) : request :=
  {| url := "/api/merge"; body := JsonBody payload |}.

Definition mergeNow (s : state) : started :=
  let mode := mode (inp s) in
  let use_all := use_all (inp s) in
  let level := parseInt (level (inp s)) in
  let chosen := selected_values (titles (doc s)) in
  if negb use_all && is_empty chosen
  then Finished (log "Selecciona al menos un título o marca 'Usar todos'." s)
  else
    let selected := if use_all then [] else chosen in
    let payload : gmap string json :=
      {[ "source" := JString (source_name (lastSource (mem s)));
         "mode" := JString mode;
         "level" := json_of_number level;
         "use_all" := JBool use_all;
         "titles" := JStrings selected ]} in
    let send (payload : gmap string json) :=
      Awaiting (log "Generando ZIP..." s) (merge_request payload)
               (KMerge mode) in
    match lastSource (mem s) with
    | SrcFolder =>
      let folder := trim (folder (inp s)) in
      if String.eqb folder ""
      then Finished (log "Ingresa la ruta de la carpeta." s)
      else send (<["include_subs" := JBool (include_subs (inp s))]>
                   (<["folder" := JString folder]> payload))
    | SrcUpload =>
      if negb (truthy (uploadToken (mem s)))
      then Finished (log "Primero sube y escanea archivos." s)
      else send (<["token" := json_of_jsval (uploadToken (mem s))]> payload)
    end.

Definition mergeNow_k (mode : string) (o : fetched) (s : state)
  : completion state :=
  match o with
  | Rejected => Thrown s
  | Resolved res =>
    if negb (res_ok res)
    then
      let error := match json_body res with
                   | Some js => js_error js
                   | None => Some (statusText res)
                   end in
      Returned (log ("ERROR: " +:+ error_or_status error (status res)) s)
    else
      let s := set_downloads (downloads (doc s) ++ [zip_name mode])%list s in
      Returned (log "Descarga iniciada." s)
  end.

Definition cleanup (s : state) : started :=
  if negb (truthy (uploadToken (mem s)))
  then Finished (log "No hay subidas por limpiar." s)
  else
    let body : gmap string json :=
      {[ "token" := json_of_jsval (uploadToken (mem s)) ]} in
    Awaiting s {| url := "/api/cleanup"; body := JsonBody body |} KCleanup.

Definition cleanup_k (o : fetched) (s : state) : completion state :=
  match o with
  | Rejected => Thrown s
  | Resolved _ =>
    let s := set_uploadToken JsNull s in
    Returned (log "Subidas temporales limpiadas." s)
  end.

(** The [change] listener of [#level]. *)
Definition level_change (s : state) : state :=
  let s := set_titles [] s in
  let s := s |> drawFilesTable [] |> setBadges 0 0 in
  log "Nivel cambiado: vuelve a Escanear títulos." s.

(** The [change] listener of [#use_all]. *)
Definition use_all_change (checked : bool) (s : state) : state :=
  if checked then set_titles (deselect_all (titles (doc s))) s else s.

(** ** The page as an event loop *)

Inductive handler := ScanFolder | ScanUpload | MergeNow | Cleanup.

Definition call (h : handler) : state -> started :=
  match h with
  | ScanFolder => scanFolder
  | ScanUpload => scanUpload
  | MergeNow => mergeNow
  | Cleanup => cleanup
  end.

Definition resume (k : cont) : fetched -> state -> completion state :=
  match k with
  | KScanFolder => scanFolder_k
  | KScanUpload => scanUpload_k
  | KMerge mode => mergeNow_k mode
  | KCleanup => cleanup_k
  end.

Definition atomic (h : handler) (o : fetched) (s : state) : state :=
  match call h s with
  | Finished s' => s'
  | Awaiting s' _ k => final (resume k o s')
  end.

Record sys := {
  now : state;
  inflight : list cont;
  sent : list request
}.

(** What can happen: the user fills inputs ([#use_all] and [#level]
    apart), picks options, toggles [#use_all], chooses a level, clicks
    a button, or the [i]-th request in flight settles. *)
Inductive event :=
  | Fill (f : form)
  | Pick (flags : list bool)
  | ToggleUseAll (checked : bool)
  | ChooseLevel (v : string)
  | Click (h : handler)
  | Settle (i : nat) (o : fetched).

Definition fill (f : form) (s : state) : state :=
  set_inp {| folder := folder f; include_subs := include_subs f;
             use_all := use_all (inp s); mode := mode f;
             level := level (inp s); files := files f |} s.

Definition check_use_all (b : bool) (s : state) : state :=
  set_inp {| folder := folder (inp s); include_subs := include_subs (inp s);
             use_all := b; mode := mode (inp s);
             level := level (inp s); files := files (inp s) |} s.

Definition choose_level (v : string) (s : state) : state :=
  set_inp {| folder := folder (inp s); include_subs := include_subs (inp s);
             use_all := use_all (inp s); mode := mode (inp s);
             level := v; files := files (inp s) |} s.

Definition step (e : event) (w : sys) : sys :=
  match e with
  | Fill f =>
    {| now := fill f (now w); inflight := inflight w; sent := sent w |}
  | Pick flags =>
    {| now := set_titles (pick flags (titles (doc (now w)))) (now w);
       inflight := inflight w; sent := sent w |}
  | ToggleUseAll b =>
    {| now := use_all_change b (check_use_all b (now w));
       inflight := inflight w; sent := sent w |}
  | ChooseLevel v =>
    {| now := level_change (choose_level v (now w));
       inflight := inflight w; sent := sent w |}
  | Click h =>
    match call h (now w) with
    | Finished s => {| now := s; inflight := inflight w; sent := sent w |}
    | Awaiting s rq k =>
      {| now := s; inflight := (inflight w ++ [k])%list;
         sent := (sent w ++ [rq])%list |}
    end
  | Settle i o =>
    match inflight w !! i with
    | Some k =>
      {| now := final (resume k o (now w));
         inflight := delete i (inflight w); sent := sent w |}
    | None => w
    end
  end.

Definition run (es : list event) (w : sys) : sys :=
  fold_left (fun w e => step e w) es w.

(** The page once [DOMContentLoaded] has fired. *)
Definition boot (d : page) (f : form) : sys :=
  {| now := {| mem := {| uploadToken := JsNull; lastSource := SrcFolder;
                         lastFilesMeta := [] |};
               doc := d; inp := f |};
     inflight := []; sent := [] |}.

End V2.

(** * Properties the specification names *)

(** A merge payload for the folder source. *)
Definition folder_shaped (p : gmap string json) : Prop :=
  is_Some (p !! "folder") /\ is_Some (p !! "include_subs")
  /\ p !! "token" = None.

(** A merge payload for an upload source. *)
Definition token_shaped (p : gmap string json) : Prop :=
  is_Some (p !! "token") /\ p !! "folder" = None
  /\ p !! "include_subs" = None.

(** The client-side validation of [mergeNow] fails (variant 1). *)
Definition invalid1 (s : V1.state) : Prop :=
  (V1.use_all (V1.inp s) = false
   /\ selected_values (V1.whitelist (V1.doc s)) = [])
  \/ (V1.lastSource (V1.mem s) = V1.SrcFolder
      /\ trim (V1.folder (V1.inp s)) = "")
  \/ (V1.lastSource (V1.mem s) = V1.SrcUpload
      /\ truthy (V1.uploadToken (V1.mem s)) = false)
  \/ (V1.lastSource (V1.mem s) = V1.SrcUploadDir
      /\ truthy (V1.uploadDirToken (V1.mem s)) = false).

(** The client-side validation of [mergeNow] fails (variant 2). *)
Definition invalid2 (s : V2.state) : Prop :=
  (V2.use_all (V2.inp s) = false
   /\ selected_values (V2.titles (V2.doc s)) = [])
  \/ (V2.lastSource (V2.mem s) = V2.SrcFolder
      /\ trim (V2.folder (V2.inp s)) = "")
  \/ (V2.lastSource (V2.mem s) = V2.SrcUpload
      /\ truthy (V2.uploadToken (V2.mem s)) = false).

(** The messages with which [mergeNow] asks the user for input. *)
Definition merge_prompts : list string :=
  [ "Selecciona al menos un título o marca 'Usar todos'.";
    "Ingresa la ruta de la carpeta.";
    "Primero sube y escanea archivos.";
    "Primero sube y escanea la carpeta." ].

(** The token [cleanup] releases: [uploadToken || uploadDirToken]. *)
Definition held1 (s : V1.state) (t : string) : Prop :=
  t <> ""
  /\ (V1.uploadToken (V1.mem s) = JsStr t
      \/ (truthy (V1.uploadToken (V1.mem s)) = false
          /\ V1.uploadDirToken (V1.mem s) = JsStr t)).

Definition cleanup_request (t : string) : request :=
  {| url := "/api/cleanup"; body := JsonBody {[ "token" := JString t ]} |}.

(** The continuations of the scan handlers. *)
Definition scan1 (k : V1.cont) : Prop :=
  k = V1.KScanFolder \/ k = V1.KScanUpload \/ k = V1.KScanUploadDir.

Definition scan2 (k : V2.cont) : Prop :=
  k = V2.KScanFolder \/ k = V2.KScanUpload.

(** The error text as the specification words it: the error string the
    server provided, the HTTP status when there is none. *)
Definition claimed_error_text (e : option string) (status : Z) : string :=
  match e with
  | Some m => m
  | None => show_Z status
  end.


(** What holds while at most one request is in flight: the tokens are
    exclusive, and a pending upload scan finds the other token null. *)
Definition waiting_inv (w : V1.sys) : Prop :=
  V1.exclusive (V1.now w)
  /\ match V1.inflight w with
     | [] => True
     | [V1.KScanUpload] => V1.uploadDirToken (V1.mem (V1.now w)) = JsNull
     | [V1.KScanUploadDir] => V1.uploadToken (V1.mem (V1.now w)) = JsNull
     | [_] => True
     | _ => False
     end.

(** ** Sample inputs *)

Module Sample.

Definition a_docx : file := {| file_name := "a.docx"; file_data := "" |}.
Definition B_DOCX : file := {| file_name := "B.DOCX"; file_data := "" |}.
Definition notes_txt : file := {| file_name := "notes.txt"; file_data := "" |}.

Definition meta_a : file_meta :=
  {| fm_name := "a.docx"; fm_count := 1; fm_titles := ["T1"] |}.

Definition page1 : V1.page :=
  {| V1.log_text := ""; V1.badge_archivos := "0 archivos";
     V1.whitelist := []; V1.files_table := [TrNoData];
     V1.downloads := [] |}.

Definition form1 : V1.form :=
  {| V1.folder := " /srv/planes "; V1.include_subs := true;
     V1.use_all := true; V1.mode := "unificado";
     V1.files := [a_docx]; V1.folderInput := [notes_txt] |}.

(** Variant 1 after loading, "use all" checked. *)
Definition s1 : V1.state := V1.now (V1.boot page1 form1).

(** The same with "use all" unchecked and no title selected. *)
Definition s1_none : V1.state := V1.check_use_all false s1.

Definition page2 : V2.page :=
  {| V2.log_text := ""; V2.badge_archivos := "0 archivos";
     V2.badge_titulos := "0 títulos";
     V2.titles := [ {| value := "T1"; selected := true |};
                    {| value := "T2"; selected := false |} ];
     V2.files_table := [TrNoData]; V2.downloads := [] |}.

Definition form2 : V2.form :=
  {| V2.folder := "/srv/planes"; V2.include_subs := false;
     V2.use_all := false; V2.mode := "grouped"; V2.level := "2";
     V2.files := [a_docx] |}.

(** Variant 2 after loading, one title selected. *)
Definition s2 : V2.state := V2.now (V2.boot page2 form2).

(** The same with no title selected. *)
Definition s2_none : V2.state :=
  V2.set_titles (deselect_all (V2.titles (V2.doc s2))) s2.

Definition payload1 : gmap string json :=
  <["include_subs" := JBool true]>
    (<["folder" := JString "/srv/planes"]>
       {[ "source" := JString "folder"; "mode" := JString "unificado";
          "titles" := JStrings V1.TITULOS_WHITELIST ]}).

Definition payload2 : gmap string json :=
  <["include_subs" := JBool false]>
    (<["folder" := JString "/srv/planes"]>
       {[ "source" := JString "folder"; "mode" := JString "grouped";
          "level" := JNum 2; "use_all" := JBool false;
          "titles" := JStrings ["T1"] ]}).

(** Variant 1 holding the token of an uploaded folder. *)
Definition s1_dir : V1.state :=
  V1.set_uploadDirToken (JsStr "tmp42") (V1.set_lastSource V1.SrcUploadDir s1).

(** Variant 2 holding an upload token. *)
Definition s2_up : V2.state :=
  V2.set_uploadToken (JsStr "tmp7") (V2.set_lastSource V2.SrcUpload s2).

Definition ok_response : response :=
  {| status := 200; statusText := "OK"; json_body := None |}.

(** A reply that is not ok and carries an empty error string. *)
Definition empty_error : response :=
  {| status := 400; statusText := "BAD REQUEST";
     json_body := Some {| js_ok := false; js_error := Some "";
                          js_token := JsUndefined; js_count := None;
                          js_files_meta := None; js_titles := None |} |}.

(** A reply that is not ok and says why. *)
Definition no_folder_json : reply_json :=
  {| js_ok := false; js_error := Some "Carpeta no encontrada";
     js_token := JsUndefined; js_count := None;
     js_files_meta := None; js_titles := None |}.

Definition no_folder : response :=
  {| status := 400; statusText := "BAD REQUEST";
     json_body := Some no_folder_json |}.

(** Each variant with an upload scan, resp. a folder scan, in flight. *)
Definition w1_waiting : V1.sys :=
  V1.step (V1.Click V1.ScanUpload) (V1.boot page1 form1).

Definition w2_waiting : V2.sys :=
  V2.step (V2.Click V2.ScanFolder) (V2.boot page2 form2).

(** Each variant idle, with nothing selected and "use all" unchecked. *)
Definition w1_none : V1.sys :=
  {| V1.now := s1_none; V1.inflight := []; V1.sent := [] |}.

Definition w2_none : V2.sys :=
  {| V2.now := s2_none; V2.inflight := []; V2.sent := [] |}.

(** The scenario of the specification: two files counted, one entry. *)
Definition two_counted_json : reply_json :=
  {| js_ok := true; js_error := None; js_token := JsUndefined;
     js_count := Some 2; js_files_meta := Some [meta_a];
     js_titles := None |}.

Definition two_counted : response :=
  {| status := 200; statusText := "OK";
     json_body := Some two_counted_json |}.


(** The reply to an upload scan that went well. *)
Definition uploaded (t : string) : response :=
  {| status := 200; statusText := "OK";
     json_body := Some {| js_ok := true; js_error := None;
                          js_token := JsStr t; js_count := Some 1;
                          js_files_meta := Some [meta_a];
                          js_titles := None |} |}.

(** Two upload scans, one after the other. *)
Definition in_turn : list V1.event :=
  [ V1.Click V1.ScanUpload; V1.Settle 0 (Resolved (uploaded "A"));
    V1.Click V1.ScanUploadDir; V1.Settle 0 (Resolved (uploaded "B")) ].

(** The second scan is started while the first one waits. *)
Definition overlapped : list V1.event :=
  [ V1.Click V1.ScanUpload; V1.Click V1.ScanUploadDir;
    V1.Settle 0 (Resolved (uploaded "A"));
    V1.Settle 0 (Resolved (uploaded "B")) ].



(** Variant 1 after the overlapping upload scans. *)
Definition w1_overlapped : V1.sys := V1.run overlapped (V1.boot page1 form1).

End Sample.

(** * The rest of the script *)

(** ** URI component coding

    [encodeURIComponent] and [decodeURIComponent] on UTF-8 byte strings:
    the first escapes every byte that is not an unreserved character,
    the second reads the escapes back and rejects what is not the UTF-8
    form of a character ([None] stands for the [URIError] it throws). *)

Definition hex_digit (n : N) : ascii :=
  if (n <? 10)%N then ascii_of_N (48 + n) else ascii_of_N (55 + n).

Definition hex_value (a : ascii) : option N :=
  let c := code a in
  if ((48 <=? c) && (c <=? 57))%N then Some (c - 48)%N
  else if ((65 <=? c) && (c <=? 70))%N then Some (c - 55)%N
  else if ((97 <=? c) && (c <=? 102))%N then Some (c - 87)%N
  else None.

(** Letters, digits and [- _ . ! ~ * ' ( )]. *)
Definition unreserved (a : ascii) : bool :=
  let c := code a in
  ((65 <=? c) && (c <=? 90) || (97 <=? c) && (c <=? 122)
   || (48 <=? c) && (c <=? 57)
   || (c =? 45) || (c =? 95) || (c =? 46) || (c =? 33) || (c =? 126)
   || (c =? 42) || (c =? 39) || (c =? 40) || (c =? 41))%N.

Definition escape (a : ascii) : list ascii :=
  [ascii_of_N 37; hex_digit (code a / 16); hex_digit (code a mod 16)].

Definition encode_byte (a : ascii) : list ascii :=
  if unreserved a then [a] else escape a.

Definition encodeURIComponent (s : string) : string :=
  string_of_list_ascii (flat_map encode_byte (list_ascii_of_string s)).

(** A character taken as it is, or the byte of an escape [%XX]. *)
Inductive token :=
  | Raw (a : ascii)
  | Esc (b : N).

(** Every [%] has to be followed by two hexadecimal digits. *)
Fixpoint tokens (l : list ascii) : option (list token) :=
  match l with
  | [] => Some []
  | a :: r =>
    if (code a =? 37)%N then
      match r with
      | h :: lo :: r2 =>
        match hex_value h, hex_value lo with
        | Some x, Some y => cons (Esc (16 * x + y)) <$> tokens r2
        | _, _ => None
        end
      | _ => None
      end
    else cons (Raw a) <$> tokens r
  end.

Definition continuation (b : N) : bool := ((128 <=? b) && (b <=? 191))%N.

(** The well-formed UTF-8 sequences of two, three and four bytes. *)
Definition valid2 (b c : N) : bool :=
  ((194 <=? b) && (b <=? 223))%N && continuation c.

Definition valid3 (b c d : N) : bool :=
  ((b =? 224) && (160 <=? c) && (c <=? 191)
   || ((225 <=? b) && (b <=? 236) || (238 <=? b) && (b <=? 239))
      && continuation c
   || (b =? 237) && (128 <=? c) && (c <=? 159))%N
  && continuation d.

Definition valid4 (b c d e : N) : bool :=
  ((b =? 240) && (144 <=? c) && (c <=? 191)
   || (241 <=? b) && (b <=? 243) && continuation c
   || (b =? 244) && (128 <=? c) && (c <=? 143))%N
  && continuation d && continuation e.

(** An escaped byte below 128 is a character; a higher one has to start
    an escaped sequence that is well-formed UTF-8. *)
Fixpoint decode_tokens (ts : list token) : option (list ascii) :=
  match ts with
  | [] => Some []
  | Raw a :: r => cons a <$> decode_tokens r
  | Esc b :: r =>
    if (b <? 128)%N then cons (ascii_of_N b) <$> decode_tokens r
    else if (b <? 224)%N then
      match r with
      | Esc c :: r2 =>
        if valid2 b c
        then (fun l => ascii_of_N b :: ascii_of_N c :: l) <$> decode_tokens r2
        else None
      | _ => None
      end
    else if (b <? 240)%N then
      match r with
      | Esc c :: Esc d :: r3 =>
        if valid3 b c d
        then (fun l => ascii_of_N b :: ascii_of_N c :: ascii_of_N d :: l)
               <$> decode_tokens r3
        else None
      | _ => None
      end
    else
      match r with
      | Esc c :: Esc d :: Esc e :: r4 =>
        if valid4 b c d e
        then (fun l => ascii_of_N b :: ascii_of_N c :: ascii_of_N d
                       :: ascii_of_N e :: l) <$> decode_tokens r4
        else None
      | _ => None
      end
  end.

Definition decodeURIComponent (s : string) : option string :=
  l ← tokens (list_ascii_of_string s);
  string_of_list_ascii <$> decode_tokens l.

(** Well-formed UTF-8. *)
Fixpoint utf8 (l : list ascii) : bool :=
  match l with
  | [] => true
  | a :: r =>
    let b := code a in
    if (b <? 128)%N then utf8 r
    else if (b <? 224)%N then
      match r with
      | c :: r2 => valid2 b (code c) && utf8 r2
      | _ => false
      end
    else if (b <? 240)%N then
      match r with
      | c :: d :: r3 => valid3 b (code c) (code d) && utf8 r3
      | _ => false
      end
    else
      match r with
      | c :: d :: e :: r4 => valid4 b (code c) (code d) (code e) && utf8 r4
      | _ => false
      end
  end.

Definition well_formed (s : string) : Prop :=
  utf8 (list_ascii_of_string s) = true.

(** ** The preview of a file *)

(** An item of [#preview-list]: the notice that there is nothing to
    show, or a title. *)
Inductive li :=
  | LiNone (text : string)
  | LiTitle (t : string).

(** What the modal shows: [#preview-file] and [#preview-list]. *)
Record preview := { preview_file : string; preview_list : list li }.

(** [lastFilesMeta.find(x => x.name === decoded)]. *)
Definition find_meta (decoded : string) (metas : list file_meta)
  : option file_meta :=
  List.find (fun x => String.eqb (fm_name x) decoded) metas.

Definition preview_items (notice : string) (meta : option file_meta)
  : list li :=
  match meta with
  | None => [LiNone notice]
  | Some m =>
    match fm_titles m with
    | [] => [LiNone notice]
    | ts => map LiTitle ts
    end
  end.

(** The [data-name] attribute [drawFilesTable] gives the button of a
    row. *)
Definition data_name (f : file_meta) : string :=
  encodeURIComponent (fm_name f).

Module Preview1.

Definition notice : string := "Sin coincidencias con la whitelist.".

(** [showPreview(name)]; [None] when [decodeURIComponent] throws, before
    anything is shown. *)
Definition showPreview (name : string) (s : V1.state) : option preview :=
  decoded ← decodeURIComponent name;
  let meta := find_meta decoded (V1.lastFilesMeta (V1.mem s)) in
  Some {| preview_file := decoded;
          preview_list := preview_items notice meta |}.

(** The click listener of [#files-table]: [btn] is the [data-name] of
    the preview button that was hit, if one was. *)
Definition files_table_click (btn : option string) (s : V1.state)
  : option preview :=
  match btn with
  | None => None
  | Some name => showPreview name s
  end.

End Preview1.

Module Preview2.

Definition notice : string :=
  "No se encontraron títulos para el nivel seleccionado.".

Definition showPreview (name : string) (s : V2.state) : option preview :=
  decoded ← decodeURIComponent name;
  let meta := find_meta decoded (V2.lastFilesMeta (V2.mem s)) in
  Some {| preview_file := decoded;
          preview_list := preview_items notice meta |}.

Definition files_table_click (btn : option string) (s : V2.state)
  : option preview :=
  match btn with
  | None => None
  | Some name => showPreview name s
  end.

End Preview2.

(** How [encodeURIComponent] leaves a byte for [decodeURIComponent]. *)
Definition token_of (a : ascii) : token :=
  if unreserved a then Raw a else Esc (code a).

(** ** Further notions *)

(** The state in which the synchronous part of a handler ends. *)
Definition started_state1 (st : V1.started) : V1.state :=
  match st with
  | V1.Finished s => s
  | V1.Awaiting s _ _ => s
  end.

Definition started_state2 (st : V2.started) : V2.state :=
  match st with
  | V2.Finished s => s
  | V2.Awaiting s _ _ => s
  end.

(** The handler call went as far as sending a request. *)
Definition sends1 (st : V1.started) : Prop :=
  exists s rq k, st = V1.Awaiting s rq k.

Definition sends2 (st : V2.started) : Prop :=
  exists s rq k, st = V2.Awaiting s rq k.

(** [new] is [old] with text added at its end. *)
Definition extends (old new : string) : Prop := exists t, new = old +:+ t.



(** The only token that may be held is the one of the active source. *)
Definition source_agrees (s : V1.state) : Prop :=
  match V1.lastSource (V1.mem s) with
  | V1.SrcFolder =>
    V1.uploadToken (V1.mem s) = JsNull
    /\ V1.uploadDirToken (V1.mem s) = JsNull
  | V1.SrcUpload => V1.uploadDirToken (V1.mem s) = JsNull
  | V1.SrcUploadDir => V1.uploadToken (V1.mem s) = JsNull
  end.

(** What the user does between a click and the reply: no click, no
    reply. *)
Definition passive1 (e : V1.event) : bool :=
  match e with
  | V1.Fill _ | V1.Pick _ | V1.ToggleUseAll _ => true
  | _ => false
  end.

Definition passive2 (e : V2.event) : bool :=
  match e with
  | V2.Fill _ | V2.Pick _ | V2.ToggleUseAll _ | V2.ChooseLevel _ => true
  | _ => false
  end.

(** The scan buttons. *)
Definition scans1 (h : V1.handler) : Prop :=
  h = V1.ScanFolder \/ h = V1.ScanUpload \/ h = V1.ScanUploadDir.



Definition nothing_to_clean : string := "No hay subidas por limpiar.".


(** What holds while at most one request is in flight: the tokens agree
    with the source, and a pending upload scan is the one of the
    source. *)
Definition waiting_source (w : V1.sys) : Prop :=
  source_agrees (V1.now w)
  /\ match V1.inflight w with
     | [] => True
     | [V1.KScanUpload] => V1.lastSource (V1.mem (V1.now w)) = V1.SrcUpload
     | [V1.KScanUploadDir] =>
       V1.lastSource (V1.mem (V1.now w)) = V1.SrcUploadDir
     | [_] => True
     | _ => False
     end.

(** The request carries the token [t]. *)
Definition carries_token (rq : request) (t : string) : Prop :=
  exists p, body rq = JsonBody p /\ p !! "token" = Some (JString t).

(** ** Further sample inputs *)

Module Cases.








(** Two entries of one name, the second without titles. *)
Definition plan1 : file_meta :=
  {| fm_name := "Plan á & b.docx"; fm_count := 1; fm_titles := ["T1"] |}.

Definition plan2 : file_meta :=
  {| fm_name := "Plan á & b.docx"; fm_count := 0; fm_titles := [] |}.

Definition s1_plans : V1.state :=
  V1.set_lastFilesMeta [Sample.meta_a; plan1; plan2] Sample.s1.

Definition s2_plans : V2.state :=
  V2.set_lastFilesMeta [Sample.meta_a; plan1; plan2] Sample.s2.

(** The user switches to the grouped mode. *)
Definition form1_grouped : V1.form :=
  {| V1.folder := " /srv/planes "; V1.include_subs := true;
     V1.use_all := true; V1.mode := "grouped";
     V1.files := [Sample.a_docx]; V1.folderInput := [Sample.notes_txt] |}.

Definition form2_unified : V2.form :=
  {| V2.folder := "/srv/planes"; V2.include_subs := false;
     V2.use_all := false; V2.mode := "unificado"; V2.level := "2";
     V2.files := [Sample.a_docx] |}.

(** A folder with a document, a document in capitals and a note. *)
Definition form1_mixed : V1.form :=
  {| V1.folder := ""; V1.include_subs := false;
     V1.use_all := true; V1.mode := "unificado";
     V1.files := [Sample.a_docx; Sample.notes_txt];
     V1.folderInput := [Sample.a_docx; Sample.notes_txt; Sample.B_DOCX] |}.

Definition s1_mixed : V1.state := V1.set_inp form1_mixed Sample.s1.

(** Variant 1 after the two upload scans in turn. *)
Definition s1_turned : V1.state :=
  V1.now (V1.run Sample.in_turn (V1.boot Sample.page1 Sample.form1)).

Definition payload_b : gmap string json :=
  <["token" := JString "B"]>
    {[ "source" := JString "upload_dir"; "mode" := JString "unificado";
       "titles" := JStrings V1.TITULOS_WHITELIST ]}.

End Cases.

(** * Theorems *)

Ltac blocked :=
  match goal with
  | H : (if ?c then V1.Finished _ else _) = V1.Awaiting _ _ _ |- _ =>
    destruct c eqn:?; [discriminate H|]
  | H : (if ?c then V2.Finished _ else _) = V2.Awaiting _ _ _ |- _ =>
    destruct c eqn:?; [discriminate H|]
  end.

Lemma is_empty_nil {A : Type} (l : list A) : is_empty l = true <-> l = [].
Proof. destruct l; simpl; split; congruence. Qed.

Lemma truthy_str (v : jsval) :
  truthy v = true -> exists t, v = JsStr t /\ t <> "".
Proof.
  destruct v as [| |t]; simpl; try discriminate.
  intros H. exists t. split; [reflexivity|].
  intros ->. discriminate H.
Qed.

(** What a sent merge request carries, variant 1. *)
Lemma mergeNow1_sent (s s' : V1.state) (rq : request) (k : V1.cont) :
  V1.mergeNow s = V1.Awaiting s' rq k ->
  exists p, rq = V1.merge_request p
    /\ p !! "source"
       = Some (JString (V1.source_name (V1.lastSource (V1.mem s))))
    /\ p !! "titles"
       = Some (JStrings (if V1.use_all (V1.inp s) then V1.TITULOS_WHITELIST
                         else selected_values (V1.whitelist (V1.doc s))))
    /\ (V1.use_all (V1.inp s) = false ->
        selected_values (V1.whitelist (V1.doc s)) <> [])
    /\ match V1.lastSource (V1.mem s) with
       | V1.SrcFolder =>
         p !! "folder" = Some (JString (trim (V1.folder (V1.inp s))))
         /\ p !! "include_subs" = Some (JBool (V1.include_subs (V1.inp s)))
         /\ p !! "token" = None
       | V1.SrcUpload =>
         p !! "token" = Some (json_of_jsval (V1.uploadToken (V1.mem s)))
         /\ p !! "folder" = None /\ p !! "include_subs" = None
       | V1.SrcUploadDir =>
         p !! "token" = Some (json_of_jsval (V1.uploadDirToken (V1.mem s)))
         /\ p !! "folder" = None /\ p !! "include_subs" = None
       end.
Proof.
  unfold V1.mergeNow. intros H. blocked.
  assert (Hsel : V1.use_all (V1.inp s) = false ->
                 selected_values (V1.whitelist (V1.doc s)) <> []).
  { intros Hu Hn. rewrite Hu, Hn in *. discriminate. }
  destruct (V1.lastSource (V1.mem s)); blocked;
    injection H as _ <- _; eexists; (split; [reflexivity|]);
    simplify_map_eq; done.
Qed.

(** What a sent merge request carries, variant 2. *)
Lemma mergeNow2_sent (s s' : V2.state) (rq : request) (k : V2.cont) :
  V2.mergeNow s = V2.Awaiting s' rq k ->
  exists p, rq = V2.merge_request p
    /\ p !! "source"
       = Some (JString (V2.source_name (V2.lastSource (V2.mem s))))
    /\ p !! "use_all" = Some (JBool (V2.use_all (V2.inp s)))
    /\ p !! "titles"
       = Some (JStrings (if V2.use_all (V2.inp s) then []
                         else selected_values (V2.titles (V2.doc s))))
    /\ (V2.use_all (V2.inp s) = false ->
        selected_values (V2.titles (V2.doc s)) <> [])
    /\ match V2.lastSource (V2.mem s) with
       | V2.SrcFolder =>
         p !! "folder" = Some (JString (trim (V2.folder (V2.inp s))))
         /\ p !! "include_subs" = Some (JBool (V2.include_subs (V2.inp s)))
         /\ p !! "token" = None
       | V2.SrcUpload =>
         p !! "token" = Some (json_of_jsval (V2.uploadToken (V2.mem s)))
         /\ p !! "folder" = None /\ p !! "include_subs" = None
       end.
Proof.
  unfold V2.mergeNow. intros H. blocked.
  assert (Hsel : V2.use_all (V2.inp s) = false ->
                 selected_values (V2.titles (V2.doc s)) <> []).
  { intros Hu Hn. rewrite Hu, Hn in *. discriminate. }
  destruct (V2.lastSource (V2.mem s)); blocked;
    injection H as _ <- _; eexists; (split; [reflexivity|]);
    simplify_map_eq; done.
Qed.

Lemma whitelist_not_empty : V1.TITULOS_WHITELIST <> [].
Proof. discriminate. Qed.

Lemma folder_fields (p : gmap string json) (f b : json) :
  p !! "folder" = Some f -> p !! "include_subs" = Some b ->
  p !! "token" = None -> folder_shaped p.
Proof. intros H1 H2 H3. unfold folder_shaped. rewrite H1, H2. eauto. Qed.

Lemma token_fields (p : gmap string json) (t : json) :
  p !! "token" = Some t -> p !! "folder" = None ->
  p !! "include_subs" = None -> token_shaped p.
Proof. intros H1 H2 H3. unfold token_shaped. rewrite H1. eauto. Qed.

Lemma folder_not_token (p : gmap string json) :
  p !! "token" = None ->
  ~ (is_Some (p !! "folder") /\ is_Some (p !! "token")).
Proof. intros H [_ [x Hx]]. congruence. Qed.

Lemma token_not_folder (p : gmap string json) :
  p !! "folder" = None ->
  ~ (is_Some (p !! "folder") /\ is_Some (p !! "token")).
Proof. intros H [[x Hx] _]. congruence. Qed.

(** C1. Every merge request [mergeNow] sends, in either variant, is
    shaped by the active source: for the folder source the payload has
    the fields [folder] and [include_subs] and no [token]; for an upload
    source it has the field [token] and neither [folder] nor
    [include_subs]; no payload has both a folder and a token. *)
Theorem merge_payload_by_source :
  (forall (s s' : V1.state) (rq : request) (k : V1.cont),
     V1.mergeNow s = V1.Awaiting s' rq k ->
     exists p, url rq = "/api/merge" /\ body rq = JsonBody p
       /\ (V1.lastSource (V1.mem s) = V1.SrcFolder -> folder_shaped p)
       /\ (V1.lastSource (V1.mem s) = V1.SrcUpload
           \/ V1.lastSource (V1.mem s) = V1.SrcUploadDir -> token_shaped p)
       /\ ~ (is_Some (p !! "folder") /\ is_Some (p !! "token")))
  /\ (forall (s s' : V2.state) (rq : request) (k : V2.cont),
     V2.mergeNow s = V2.Awaiting s' rq k ->
     exists p, url rq = "/api/merge" /\ body rq = JsonBody p
       /\ (V2.lastSource (V2.mem s) = V2.SrcFolder -> folder_shaped p)
       /\ (V2.lastSource (V2.mem s) = V2.SrcUpload -> token_shaped p)
       /\ ~ (is_Some (p !! "folder") /\ is_Some (p !! "token"))).
Proof.
  split; intros s s' rq k H.
  - destruct (mergeNow1_sent _ _ _ _ H) as (p & -> & _ & _ & _ & Hp).
    exists p. split; [reflexivity|]. split; [reflexivity|].
    destruct (V1.lastSource (V1.mem s)); destruct Hp as (H1 & H2 & H3).
    + split; [intros _; eauto using folder_fields|].
      split; [intros [E | E]; discriminate E|].
      eauto using folder_not_token.
    + split; [intros E; discriminate E|].
      split; [intros _; eauto using token_fields|].
      eauto using token_not_folder.
    + split; [intros E; discriminate E|].
      split; [intros _; eauto using token_fields|].
      eauto using token_not_folder.
  - destruct (mergeNow2_sent _ _ _ _ H) as (p & -> & _ & _ & _ & _ & Hp).
    exists p. split; [reflexivity|]. split; [reflexivity|].
    destruct (V2.lastSource (V2.mem s)); destruct Hp as (H1 & H2 & H3).
    + split; [intros _; eauto using folder_fields|].
      split; [intros E; discriminate E|].
      eauto using folder_not_token.
    + split; [intros E; discriminate E|].
      split; [intros _; eauto using token_fields|].
      eauto using token_not_folder.
Qed.

Lemma merge_payload_by_source_witness :
  (V1.mergeNow Sample.s1
   = V1.Awaiting (V1.log "Generando ZIP..." Sample.s1)
                 (V1.merge_request Sample.payload1) (V1.KMerge "unificado")
   /\ exists p, url (V1.merge_request Sample.payload1) = "/api/merge"
       /\ body (V1.merge_request Sample.payload1) = JsonBody p
       /\ (V1.lastSource (V1.mem Sample.s1) = V1.SrcFolder -> folder_shaped p)
       /\ (V1.lastSource (V1.mem Sample.s1) = V1.SrcUpload
           \/ V1.lastSource (V1.mem Sample.s1) = V1.SrcUploadDir
           -> token_shaped p)
       /\ ~ (is_Some (p !! "folder") /\ is_Some (p !! "token")))
  /\ (V2.mergeNow Sample.s2
      = V2.Awaiting (V2.log "Generando ZIP..." Sample.s2)
                    (V2.merge_request Sample.payload2) (V2.KMerge "grouped")
      /\ exists p, url (V2.merge_request Sample.payload2) = "/api/merge"
          /\ body (V2.merge_request Sample.payload2) = JsonBody p
          /\ (V2.lastSource (V2.mem Sample.s2) = V2.SrcFolder
              -> folder_shaped p)
          /\ (V2.lastSource (V2.mem Sample.s2) = V2.SrcUpload
              -> token_shaped p)
          /\ ~ (is_Some (p !! "folder") /\ is_Some (p !! "token"))).
Proof.
  assert (H1 : V1.mergeNow Sample.s1
               = V1.Awaiting (V1.log "Generando ZIP..." Sample.s1)
                   (V1.merge_request Sample.payload1)
                   (V1.KMerge "unificado")) by (vm_compute; reflexivity).
  assert (H2 : V2.mergeNow Sample.s2
               = V2.Awaiting (V2.log "Generando ZIP..." Sample.s2)
                   (V2.merge_request Sample.payload2)
                   (V2.KMerge "grouped")) by (vm_compute; reflexivity).
  split; (split; [assumption|]).
  - exact (proj1 merge_payload_by_source _ _ _ _ H1).
  - exact (proj2 merge_payload_by_source _ _ _ _ H2).
Defined.

(** The validation of [mergeNow] fails: the call ends with a prompt. *)
Lemma mergeNow1_blocked (s : V1.state) :
  invalid1 s ->
  exists m, In m merge_prompts /\ V1.mergeNow s = V1.Finished (V1.log m s).
Proof.
  unfold invalid1, V1.mergeNow, merge_prompts.
  intros H.
  destruct (negb (V1.use_all (V1.inp s))
            && is_empty (selected_values (V1.whitelist (V1.doc s)))) eqn:E.
  { eexists; split; [|reflexivity]. simpl; auto. }
  destruct H as [[Hu Hn] | [[Hs Hf] | [[Hs Ht] | [Hs Ht]]]].
  - rewrite Hu, Hn in E. discriminate.
  - rewrite Hs, Hf. simpl. eexists; split; [|reflexivity]. simpl; auto.
  - rewrite Hs, Ht. simpl. eexists; split; [|reflexivity]. simpl; auto.
  - rewrite Hs, Ht. simpl. eexists; split; [|reflexivity]. simpl; auto.
Qed.

Lemma mergeNow2_blocked (s : V2.state) :
  invalid2 s ->
  exists m, In m merge_prompts /\ V2.mergeNow s = V2.Finished (V2.log m s).
Proof.
  unfold invalid2, V2.mergeNow, merge_prompts.
  intros H.
  destruct (negb (V2.use_all (V2.inp s))
            && is_empty (selected_values (V2.titles (V2.doc s)))) eqn:E.
  { eexists; split; [|reflexivity]. simpl; auto. }
  destruct H as [[Hu Hn] | [[Hs Hf] | [Hs Ht]]].
  - rewrite Hu, Hn in E. discriminate.
  - rewrite Hs, Hf. simpl. eexists; split; [|reflexivity]. simpl; auto.
  - rewrite Hs, Ht. simpl. eexists; split; [|reflexivity]. simpl; auto.
Qed.

(** C2. When the client-side validation fails (no title selected without
    "use all", an empty trimmed folder path for the folder source, no
    token for an upload source), [mergeNow] sends nothing: the call
    ends after appending one of its prompts to the log, and the click
    leaves the requests sent and in flight as they were (both
    variants). *)
Theorem merge_blocked_when_invalid :
  (forall s : V1.state, invalid1 s ->
     exists m, In m merge_prompts
       /\ V1.mergeNow s = V1.Finished (V1.log m s))
  /\ (forall w : V1.sys, invalid1 (V1.now w) ->
       V1.sent (V1.step (V1.Click V1.MergeNow) w) = V1.sent w
       /\ V1.inflight (V1.step (V1.Click V1.MergeNow) w) = V1.inflight w)
  /\ (forall s : V2.state, invalid2 s ->
       exists m, In m merge_prompts
         /\ V2.mergeNow s = V2.Finished (V2.log m s))
  /\ (forall w : V2.sys, invalid2 (V2.now w) ->
       V2.sent (V2.step (V2.Click V2.MergeNow) w) = V2.sent w
       /\ V2.inflight (V2.step (V2.Click V2.MergeNow) w) = V2.inflight w).
Proof.
  repeat split.
  - apply mergeNow1_blocked; assumption.
  - destruct (mergeNow1_blocked _ H) as (m & _ & E). simpl. rewrite E.
    reflexivity.
  - destruct (mergeNow1_blocked _ H) as (m & _ & E). simpl. rewrite E.
    reflexivity.
  - apply mergeNow2_blocked; assumption.
  - destruct (mergeNow2_blocked _ H) as (m & _ & E). simpl. rewrite E.
    reflexivity.
  - destruct (mergeNow2_blocked _ H) as (m & _ & E). simpl. rewrite E.
    reflexivity.
Qed.

Lemma merge_blocked_when_invalid_witness :
  (invalid1 Sample.s1_none
   /\ exists m, In m merge_prompts
       /\ V1.mergeNow Sample.s1_none
          = V1.Finished (V1.log m Sample.s1_none))
  /\ (invalid1 (V1.now Sample.w1_none)
      /\ V1.sent (V1.step (V1.Click V1.MergeNow) Sample.w1_none)
         = V1.sent Sample.w1_none)
  /\ (invalid2 Sample.s2_none
      /\ exists m, In m merge_prompts
          /\ V2.mergeNow Sample.s2_none
             = V2.Finished (V2.log m Sample.s2_none))
  /\ (invalid2 (V2.now Sample.w2_none)
      /\ V2.sent (V2.step (V2.Click V2.MergeNow) Sample.w2_none)
         = V2.sent Sample.w2_none).
Proof.
  assert (H1 : invalid1 Sample.s1_none) by (left; split; reflexivity).
  assert (H2 : invalid2 Sample.s2_none) by (left; split; reflexivity).
  destruct merge_blocked_when_invalid as (A & B & C & D).
  split; [|split; [|split]]; (split; [assumption|]).
  - exact (A _ H1).
  - exact (proj1 (B Sample.w1_none H1)).
  - exact (C _ H2).
  - exact (proj1 (D Sample.w2_none H2)).
Defined.

(** C3. In every merge payload sent, [titles] is the empty list only
    when [use_all] is true.  Without "use all" the titles are the
    explicit selection, which is not empty; with "use all" variant 1
    sends the whole fixed whitelist and variant 2 sends an empty list
    together with [use_all = true]. *)
Theorem merge_titles_empty_only_with_use_all :
  (forall (s s' : V1.state) (rq : request) (k : V1.cont),
     V1.mergeNow s = V1.Awaiting s' rq k ->
     exists p ts, body rq = JsonBody p
       /\ p !! "titles" = Some (JStrings ts)
       /\ (ts = [] -> V1.use_all (V1.inp s) = true)
       /\ (V1.use_all (V1.inp s) = false ->
           ts = selected_values (V1.whitelist (V1.doc s)) /\ ts <> [])
       /\ (V1.use_all (V1.inp s) = true -> ts = V1.TITULOS_WHITELIST))
  /\ (forall (s s' : V2.state) (rq : request) (k : V2.cont),
     V2.mergeNow s = V2.Awaiting s' rq k ->
     exists p ts, body rq = JsonBody p
       /\ p !! "titles" = Some (JStrings ts)
       /\ p !! "use_all" = Some (JBool (V2.use_all (V2.inp s)))
       /\ (ts = [] -> V2.use_all (V2.inp s) = true)
       /\ (V2.use_all (V2.inp s) = false ->
           ts = selected_values (V2.titles (V2.doc s)) /\ ts <> [])
       /\ (V2.use_all (V2.inp s) = true -> ts = [])).
Proof.
  split; intros s s' rq k H.
  - destruct (mergeNow1_sent _ _ _ _ H) as (p & -> & _ & Ht & Hsel & _).
    exists p. eexists. split; [reflexivity|]. split; [exact Ht|].
    destruct (V1.use_all (V1.inp s)).
    + repeat split; try discriminate; auto.
    + repeat split; try discriminate; auto.
      intros E. exfalso. exact (Hsel eq_refl E).
  - destruct (mergeNow2_sent _ _ _ _ H) as (p & -> & _ & Hu & Ht & Hsel & _).
    exists p. eexists. split; [reflexivity|]. split; [exact Ht|].
    split; [exact Hu|].
    destruct (V2.use_all (V2.inp s)).
    + repeat split; try discriminate; auto.
    + repeat split; try discriminate; auto.
      intros E. exfalso. exact (Hsel eq_refl E).
Qed.

Lemma merge_titles_empty_only_with_use_all_witness :
  (V1.mergeNow Sample.s1
   = V1.Awaiting (V1.log "Generando ZIP..." Sample.s1)
                 (V1.merge_request Sample.payload1) (V1.KMerge "unificado")
   /\ exists p ts, body (V1.merge_request Sample.payload1) = JsonBody p
       /\ p !! "titles" = Some (JStrings ts)
       /\ (ts = [] -> V1.use_all (V1.inp Sample.s1) = true)
       /\ (V1.use_all (V1.inp Sample.s1) = false ->
           ts = selected_values (V1.whitelist (V1.doc Sample.s1))
           /\ ts <> [])
       /\ (V1.use_all (V1.inp Sample.s1) = true ->
           ts = V1.TITULOS_WHITELIST))
  /\ (V2.mergeNow Sample.s2
      = V2.Awaiting (V2.log "Generando ZIP..." Sample.s2)
                    (V2.merge_request Sample.payload2) (V2.KMerge "grouped")
      /\ exists p ts, body (V2.merge_request Sample.payload2) = JsonBody p
          /\ p !! "titles" = Some (JStrings ts)
          /\ p !! "use_all" = Some (JBool (V2.use_all (V2.inp Sample.s2)))
          /\ (ts = [] -> V2.use_all (V2.inp Sample.s2) = true)
          /\ (V2.use_all (V2.inp Sample.s2) = false ->
              ts = selected_values (V2.titles (V2.doc Sample.s2))
              /\ ts <> [])
          /\ (V2.use_all (V2.inp Sample.s2) = true -> ts = [])).
Proof.
  assert (H1 : V1.mergeNow Sample.s1
               = V1.Awaiting (V1.log "Generando ZIP..." Sample.s1)
                   (V1.merge_request Sample.payload1)
                   (V1.KMerge "unificado")) by (vm_compute; reflexivity).
  assert (H2 : V2.mergeNow Sample.s2
               = V2.Awaiting (V2.log "Generando ZIP..." Sample.s2)
                   (V2.merge_request Sample.payload2)
                   (V2.KMerge "grouped")) by (vm_compute; reflexivity).
  split; (split; [assumption|]).
  - exact (proj1 merge_titles_empty_only_with_use_all _ _ _ _ H1).
  - exact (proj2 merge_titles_empty_only_with_use_all _ _ _ _ H2).
Defined.

Lemma truthy_JsStr (t : string) : t <> "" -> truthy (JsStr t) = true.
Proof.
  intros H. simpl. apply negb_true_iff, String.eqb_neq. exact H.
Qed.

(** C4, as worded, fails: when the cleanup request itself fails (the
    awaited [fetch] rejects), the token has been posted but the token
    variables are not cleared and nothing is logged. *)
Lemma cleanup_network_failure_keeps_token :
  V1.cleanup Sample.s1_dir
  = V1.Awaiting Sample.s1_dir (cleanup_request "tmp42") V1.KCleanup
  /\ V1.atomic V1.Cleanup Rejected Sample.s1_dir = Sample.s1_dir
  /\ V1.uploadDirToken (V1.mem (V1.atomic V1.Cleanup Rejected Sample.s1_dir))
     = JsStr "tmp42"
  /\ V1.uploadDirToken (V1.mem (V1.atomic V1.Cleanup Rejected Sample.s1_dir))
     <> JsNull.
Proof.
  split; [vm_compute; reflexivity|].
  split; [vm_compute; reflexivity|].
  split; [reflexivity|].
  vm_compute. discriminate.
Qed.

(** C4, amended. [cleanup] without a token sends nothing and logs that
    there are no uploads to clean.  With a token held it posts that
    token to [/api/cleanup]; once the request is answered, whatever the
    answer, the token variables are null again (both of them in
    variant 1) and the log says so; when the request fails on the
    network the state stays as it was.  This holds in every state (both
    variants). *)
Theorem cleanup_releases_token :
  (forall s : V1.state,
     truthy (V1.uploadToken (V1.mem s)) = false ->
     truthy (V1.uploadDirToken (V1.mem s)) = false ->
     V1.cleanup s = V1.Finished (V1.log "No hay subidas por limpiar." s))
  /\ (forall (s : V1.state) (t : string), held1 s t ->
       V1.cleanup s = V1.Awaiting s (cleanup_request t) V1.KCleanup)
  /\ (forall (r : response) (s : V1.state),
       exists s', V1.cleanup_k (Resolved r) s = Returned s'
         /\ V1.uploadToken (V1.mem s') = JsNull
         /\ V1.uploadDirToken (V1.mem s') = JsNull
         /\ V1.log_text (V1.doc s')
            = V1.log_text (V1.doc s) +:+ "Subidas temporales limpiadas."
              +:+ nl)
  /\ (forall s : V1.state, V1.cleanup_k Rejected s = Thrown s)
  /\ (forall s : V2.state,
       truthy (V2.uploadToken (V2.mem s)) = false ->
       V2.cleanup s = V2.Finished (V2.log "No hay subidas por limpiar." s))
  /\ (forall (s : V2.state) (t : string),
       t <> "" -> V2.uploadToken (V2.mem s) = JsStr t ->
       V2.cleanup s = V2.Awaiting s (cleanup_request t) V2.KCleanup)
  /\ (forall (r : response) (s : V2.state),
       exists s', V2.cleanup_k (Resolved r) s = Returned s'
         /\ V2.uploadToken (V2.mem s') = JsNull
         /\ V2.log_text (V2.doc s')
            = V2.log_text (V2.doc s) +:+ "Subidas temporales limpiadas."
              +:+ nl)
  /\ (forall s : V2.state, V2.cleanup_k Rejected s = Thrown s).
Proof.
  split; [|split; [|split; [|split; [|split; [|split; [|split]]]]]].
  - intros s H1 H2. unfold V1.cleanup, js_or. rewrite H1, H2. reflexivity.
  - intros s t [Ht [E | [Hf E]]]; unfold V1.cleanup, js_or.
    + rewrite E, (truthy_JsStr _ Ht). cbv iota.
      rewrite (truthy_JsStr _ Ht). reflexivity.
    + rewrite Hf, E, (truthy_JsStr _ Ht). reflexivity.
  - intros r s. eexists. split; [reflexivity|]. simpl. auto.
  - reflexivity.
  - intros s H. unfold V2.cleanup. rewrite H. reflexivity.
  - intros s t Ht E. unfold V2.cleanup.
    rewrite E, (truthy_JsStr _ Ht). reflexivity.
  - intros r s. eexists. split; [reflexivity|]. simpl. auto.
  - reflexivity.
Qed.

Lemma cleanup_releases_token_witness :
  (truthy (V1.uploadToken (V1.mem Sample.s1)) = false
   /\ truthy (V1.uploadDirToken (V1.mem Sample.s1)) = false
   /\ V1.cleanup Sample.s1
      = V1.Finished (V1.log "No hay subidas por limpiar." Sample.s1))
  /\ (held1 Sample.s1_dir "tmp42"
      /\ V1.cleanup Sample.s1_dir
         = V1.Awaiting Sample.s1_dir (cleanup_request "tmp42") V1.KCleanup)
  /\ (truthy (V2.uploadToken (V2.mem Sample.s2)) = false
      /\ V2.cleanup Sample.s2
         = V2.Finished (V2.log "No hay subidas por limpiar." Sample.s2))
  /\ ("tmp7" <> ""
      /\ V2.uploadToken (V2.mem Sample.s2_up) = JsStr "tmp7"
      /\ V2.cleanup Sample.s2_up
         = V2.Awaiting Sample.s2_up (cleanup_request "tmp7") V2.KCleanup).
Proof.
  assert (N1 : "tmp42" <> "") by discriminate.
  assert (N2 : "tmp7" <> "") by discriminate.
  assert (H1 : held1 Sample.s1_dir "tmp42").
  { split; [exact N1|]. right. split; reflexivity. }
  destruct cleanup_releases_token as (A & B & _ & _ & C & D & _).
  split; [|split; [|split]].
  - split; [reflexivity|]. split; [reflexivity|].
    exact (A Sample.s1 eq_refl eq_refl).
  - split; [exact H1|]. exact (B _ _ H1).
  - split; [reflexivity|]. exact (C Sample.s2 eq_refl).
  - split; [exact N2|]. split; [reflexivity|].
    exact (D Sample.s2_up "tmp7" N2 eq_refl).
Defined.

(** C5. In variant 2 every change of the level control empties the
    title list, puts the files table back to its placeholder row, sets
    both badges to zero and logs the request to scan again. *)
Theorem level_change_invalidates :
  (forall s : V2.state,
     V2.titles (V2.doc (V2.level_change s)) = []
     /\ V2.files_table (V2.doc (V2.level_change s)) = [TrNoData]
     /\ V2.badge_archivos (V2.doc (V2.level_change s)) = "0 archivos"
     /\ V2.badge_titulos (V2.doc (V2.level_change s)) = "0 títulos"
     /\ V2.log_text (V2.doc (V2.level_change s))
        = V2.log_text (V2.doc s)
          +:+ "Nivel cambiado: vuelve a Escanear títulos." +:+ nl)
  /\ (forall (w : V2.sys) (v : string),
       V2.now (V2.step (V2.ChooseLevel v) w)
       = V2.level_change (V2.choose_level v (V2.now w))).
Proof.
  split.
  - intros s. repeat split.
  - intros w v. reflexivity.
Qed.

Lemma deselect_all_none (os : list option_el) :
  selected_values (deselect_all os) = []
  /\ Forall (fun o => selected o = false) (deselect_all os)
  /\ map value (deselect_all os) = map value os.
Proof.
  unfold selected_values, deselect_all.
  induction os as [|o os (IH1 & IH2 & IH3)]; simpl.
  - repeat split. constructor.
  - repeat split.
    + exact IH1.
    + constructor; [reflexivity | exact IH2].
    + f_equal. exact IH3.
Qed.

(** C6. When the "use all" check box becomes checked, every option of
    the title list is deselected (the options themselves stay), so
    after the change event no explicit selection coexists with the
    checked box (both variants). *)
Theorem use_all_clears_selection :
  (forall s : V1.state,
     let os := V1.whitelist (V1.doc (V1.use_all_change true s)) in
     Forall (fun o => selected o = false) os
     /\ selected_values os = []
     /\ map value os = map value (V1.whitelist (V1.doc s)))
  /\ (forall w : V1.sys,
       let s' := V1.now (V1.step (V1.ToggleUseAll true) w) in
       V1.use_all (V1.inp s') = true
       /\ selected_values (V1.whitelist (V1.doc s')) = [])
  /\ (forall s : V2.state,
       let os := V2.titles (V2.doc (V2.use_all_change true s)) in
       Forall (fun o => selected o = false) os
       /\ selected_values os = []
       /\ map value os = map value (V2.titles (V2.doc s)))
  /\ (forall w : V2.sys,
       let s' := V2.now (V2.step (V2.ToggleUseAll true) w) in
       V2.use_all (V2.inp s') = true
       /\ selected_values (V2.titles (V2.doc s')) = []).
Proof.
  split; [|split; [|split]].
  - intros s. simpl.
    destruct (deselect_all_none (V1.whitelist (V1.doc s))) as (A & B & C).
    auto.
  - intros w. simpl. split; [reflexivity|].
    apply (deselect_all_none (V1.whitelist (V1.doc (V1.now w)))).
  - intros s. simpl.
    destruct (deselect_all_none (V2.titles (V2.doc s))) as (A & B & C).
    auto.
  - intros w. simpl. split; [reflexivity|].
    apply (deselect_all_none (V2.titles (V2.doc (V2.now w)))).
Qed.

(** C7, as worded, fails: an error string that is present but empty is
    not what the log shows, the HTTP status is. *)
Lemma empty_error_string_logs_status :
  V1.scanFolder_k (Resolved Sample.empty_error) Sample.s1
  = Returned (V1.log "ERROR: 400" Sample.s1)
  /\ ~ (forall (r : response) (js : reply_json) (s : V1.state),
          json_body r = Some js -> js_ok js = false ->
          V1.scanFolder_k (Resolved r) s
          = Returned (V1.log ("ERROR: " +:+ claimed_error_text
                                              (js_error js) (status r)) s)).
Proof.
  split; [reflexivity|].
  intros H.
  specialize (H Sample.empty_error _ Sample.s1 eq_refl eq_refl).
  vm_compute in H. discriminate H.
Qed.

Lemma error_or_status_cases :
  (forall (m : string) (st : Z), m <> "" -> error_or_status (Some m) st = m)
  /\ (forall st : Z, error_or_status (Some "") st = show_Z st)
  /\ (forall st : Z, error_or_status None st = show_Z st).
Proof.
  repeat split.
  intros m st H. unfold error_or_status.
  destruct (String.eqb_spec m ""); [contradiction | reflexivity].
Qed.

(** C7, amended. For every scan handler of either variant, a reply whose
    [ok] is false makes the client append "ERROR: " and the error string
    of the server when that is present and not empty, the HTTP status
    otherwise; the variables (file metadata, tokens) stay as they were,
    and the settled request is not sent again. *)
Theorem scan_failure_is_logged :
  (forall (k : V1.cont) (r : response) (js : reply_json) (s : V1.state),
     scan1 k -> json_body r = Some js -> js_ok js = false ->
     V1.resume k (Resolved r) s
     = Returned (V1.log ("ERROR: " +:+ error_or_status (js_error js)
                                                      (status r)) s)
     /\ V1.mem (final (V1.resume k (Resolved r) s)) = V1.mem s
     /\ (forall m : string, js_error js = Some m -> m <> "" ->
         error_or_status (js_error js) (status r) = m)
     /\ (js_error js = None \/ js_error js = Some "" ->
         error_or_status (js_error js) (status r) = show_Z (status r)))
  /\ (forall (w : V1.sys) (i : nat) (k : V1.cont) (r : response)
            (js : reply_json),
       V1.inflight w !! i = Some k -> scan1 k ->
       json_body r = Some js -> js_ok js = false ->
       V1.sent (V1.step (V1.Settle i (Resolved r)) w) = V1.sent w
       /\ V1.inflight (V1.step (V1.Settle i (Resolved r)) w)
          = delete i (V1.inflight w))
  /\ (forall (k : V2.cont) (r : response) (js : reply_json) (s : V2.state),
       scan2 k -> json_body r = Some js -> js_ok js = false ->
       V2.resume k (Resolved r) s
       = Returned (V2.log ("ERROR: " +:+ error_or_status (js_error js)
                                                        (status r)) s)
       /\ V2.mem (final (V2.resume k (Resolved r) s)) = V2.mem s
       /\ (forall m : string, js_error js = Some m -> m <> "" ->
           error_or_status (js_error js) (status r) = m)
       /\ (js_error js = None \/ js_error js = Some "" ->
           error_or_status (js_error js) (status r) = show_Z (status r)))
  /\ (forall (w : V2.sys) (i : nat) (k : V2.cont) (r : response)
            (js : reply_json),
       V2.inflight w !! i = Some k -> scan2 k ->
       json_body r = Some js -> js_ok js = false ->
       V2.sent (V2.step (V2.Settle i (Resolved r)) w) = V2.sent w
       /\ V2.inflight (V2.step (V2.Settle i (Resolved r)) w)
          = delete i (V2.inflight w)).
Proof.
  destruct error_or_status_cases as (E1 & E2 & E3).
  split; [|split; [|split]].
  - intros k r js s Hk Hb Hok.
    assert (R : V1.resume k (Resolved r) s
                = Returned (V1.log ("ERROR: " +:+ error_or_status
                                      (js_error js) (status r)) s)).
    { destruct Hk as [-> | [-> | ->]]; simpl;
        [unfold V1.scanFolder_k | unfold V1.scanUpload_k
         | unfold V1.scanUploadDir_k]; rewrite Hb, Hok; reflexivity. }
    split; [exact R|]. split; [rewrite R; reflexivity|].
    split.
    + intros m -> Hm. apply E1. exact Hm.
    + intros [-> | ->]; [apply E3 | apply E2].
  - intros w i k r js Hi _ _ _. simpl. rewrite Hi. split; reflexivity.
  - intros k r js s Hk Hb Hok.
    assert (R : V2.resume k (Resolved r) s
                = Returned (V2.log ("ERROR: " +:+ error_or_status
                                      (js_error js) (status r)) s)).
    { destruct Hk as [-> | ->]; simpl;
        [unfold V2.scanFolder_k | unfold V2.scanUpload_k];
        rewrite Hb, Hok; reflexivity. }
    split; [exact R|]. split; [rewrite R; reflexivity|].
    split.
    + intros m -> Hm. apply E1. exact Hm.
    + intros [-> | ->]; [apply E3 | apply E2].
  - intros w i k r js Hi _ _ _. simpl. rewrite Hi. split; reflexivity.
Qed.

Lemma scan_failure_is_logged_witness :
  (scan1 V1.KScanUpload
   /\ json_body Sample.no_folder = Some Sample.no_folder_json
   /\ js_ok Sample.no_folder_json = false
   /\ V1.resume V1.KScanUpload (Resolved Sample.no_folder) Sample.s1
      = Returned (V1.log ("ERROR: " +:+ error_or_status
                            (js_error Sample.no_folder_json)
                            (status Sample.no_folder)) Sample.s1))
  /\ (V1.inflight Sample.w1_waiting !! 0%nat = Some V1.KScanUpload
      /\ V1.sent (V1.step (V1.Settle 0 (Resolved Sample.no_folder))
                          Sample.w1_waiting)
         = V1.sent Sample.w1_waiting)
  /\ (scan2 V2.KScanFolder
      /\ V2.resume V2.KScanFolder (Resolved Sample.no_folder) Sample.s2
         = Returned (V2.log ("ERROR: " +:+ error_or_status
                               (js_error Sample.no_folder_json)
                               (status Sample.no_folder)) Sample.s2))
  /\ (V2.inflight Sample.w2_waiting !! 0%nat = Some V2.KScanFolder
      /\ V2.sent (V2.step (V2.Settle 0 (Resolved Sample.no_folder))
                          Sample.w2_waiting)
         = V2.sent Sample.w2_waiting).
Proof.
  assert (K1 : scan1 V1.KScanUpload) by (right; left; reflexivity).
  assert (K2 : scan2 V2.KScanFolder) by (left; reflexivity).
  assert (I1 : V1.inflight Sample.w1_waiting !! 0%nat = Some V1.KScanUpload)
    by reflexivity.
  assert (I2 : V2.inflight Sample.w2_waiting !! 0%nat = Some V2.KScanFolder)
    by reflexivity.
  destruct scan_failure_is_logged as (A & B & C & D).
  split; [|split; [|split]].
  - split; [exact K1|]. split; [reflexivity|]. split; [reflexivity|].
    exact (proj1 (A _ Sample.no_folder _ Sample.s1 K1 eq_refl eq_refl)).
  - split; [exact I1|].
    exact (proj1 (B _ _ _ Sample.no_folder _ I1 K1 eq_refl eq_refl)).
  - split; [exact K2|].
    exact (proj1 (C _ Sample.no_folder _ Sample.s2 K2 eq_refl eq_refl)).
  - split; [exact I2|].
    exact (proj1 (D _ _ _ Sample.no_folder _ I2 K2 eq_refl eq_refl)).
Defined.

(** A reply that cannot be read as JSON, or no reply at all, stops a
    scan handler at its [await]: nothing is logged or stored. *)
Lemma scan_unreadable_reply_throws :
  (forall (k : V1.cont) (r : response) (s : V1.state),
     scan1 k -> json_body r = None ->
     V1.resume k (Resolved r) s = Thrown s
     /\ V1.resume k Rejected s = Thrown s)
  /\ (forall (k : V2.cont) (r : response) (s : V2.state),
       scan2 k -> json_body r = None ->
       V2.resume k (Resolved r) s = Thrown s
       /\ V2.resume k Rejected s = Thrown s).
Proof.
  split.
  - intros k r s [-> | [-> | ->]] Hb; simpl;
      [unfold V1.scanFolder_k | unfold V1.scanUpload_k
       | unfold V1.scanUploadDir_k]; rewrite Hb; split; reflexivity.
  - intros k r s [-> | ->] Hb; simpl;
      [unfold V2.scanFolder_k | unfold V2.scanUpload_k];
      rewrite Hb; split; reflexivity.
Qed.

(** ** The number a badge shows *)









(** Variant 2 after a scan that went well and brought titles: the files
    badge shows the number of entries. *)
Lemma variant2_badge_is_length (k : V2.cont) (r : response)
      (js : reply_json) (ts : list string) (s : V2.state) :
  scan2 k -> json_body r = Some js -> js_ok js = true ->
  js_titles js = Some ts ->
  V2.badge_archivos (V2.doc (final (V2.resume k (Resolved r) s)))
  = archivos_text (Z.of_nat (length (default [] (js_files_meta js)))).
Proof.
  intros [-> | ->] Hb Hok Ht; simpl;
    [unfold V2.scanFolder_k | unfold V2.scanUpload_k];
    rewrite Hb, Hok, Ht; reflexivity.
Qed.

(** Variant 2 reads [js.titles.length] unguarded: a reply without titles
    stops the handler once the metadata is stored, the table is not
    drawn. *)
Lemma variant2_scan_needs_titles (r : response) (js : reply_json)
      (s : V2.state) :
  json_body r = Some js -> js_ok js = true -> js_titles js = None ->
  V2.scanFolder_k (Resolved r) s
  = Thrown (V2.set_lastFilesMeta (default [] (js_files_meta js)) s).
Proof.
  intros Hb Hok Ht. unfold V2.scanFolder_k. rewrite Hb, Hok, Ht. reflexivity.
Qed.



(** ** The two tokens of variant 1 *)

(** What a continuation does to the tokens. *)
Lemma resume_tokens (k : V1.cont) (o : fetched) (s : V1.state) :
  let s' := final (V1.resume k o s) in
  match k with
  | V1.KScanFolder | V1.KMerge _ =>
    V1.uploadToken (V1.mem s') = V1.uploadToken (V1.mem s)
    /\ V1.uploadDirToken (V1.mem s') = V1.uploadDirToken (V1.mem s)
  | V1.KScanUpload =>
    V1.uploadDirToken (V1.mem s') = V1.uploadDirToken (V1.mem s)
  | V1.KScanUploadDir =>
    V1.uploadToken (V1.mem s') = V1.uploadToken (V1.mem s)
  | V1.KCleanup =>
    (V1.uploadToken (V1.mem s') = V1.uploadToken (V1.mem s)
     /\ V1.uploadDirToken (V1.mem s') = V1.uploadDirToken (V1.mem s))
    \/ (V1.uploadToken (V1.mem s') = JsNull
        /\ V1.uploadDirToken (V1.mem s') = JsNull)
  end.
Proof.
  destruct k; simpl;
    [unfold V1.scanFolder_k | unfold V1.scanUpload_k
     | unfold V1.scanUploadDir_k | unfold V1.mergeNow_k
     | unfold V1.cleanup_k];
    destruct o as [|r]; try (simpl; auto; fail);
    try (destruct (json_body r) as [js|]; [destruct (js_ok js)|];
         simpl; auto; fail).
  destruct (res_ok r); simpl; auto.
Qed.

(** What the synchronous part of a handler does to the tokens. *)
Lemma call_tokens (h : V1.handler) (s : V1.state) :
  V1.exclusive s ->
  match V1.call h s with
  | V1.Finished s' => V1.exclusive s'
  | V1.Awaiting s' _ k =>
    V1.exclusive s'
    /\ match k with
       | V1.KScanFolder =>
         V1.uploadToken (V1.mem s') = JsNull
         /\ V1.uploadDirToken (V1.mem s') = JsNull
       | V1.KScanUpload => V1.uploadDirToken (V1.mem s') = JsNull
       | V1.KScanUploadDir => V1.uploadToken (V1.mem s') = JsNull
       | _ => True
       end
  end.
Proof.
  intros Hs. destruct h; simpl.
  - split; [left; reflexivity | split; reflexivity].
  - unfold V1.scanUpload.
    cbn [V1.inp V1.set_whitelist V1.setBadges V1.drawFilesTable
         V1.set_files_table V1.set_badge_archivos V1.set_lastSource
         V1.set_uploadDirToken].
    destruct (V1.files (V1.inp s)); [right; reflexivity|].
    split; [right; reflexivity | reflexivity].
  - unfold V1.scanUploadDir.
    cbn [V1.inp V1.set_whitelist V1.setBadges V1.drawFilesTable
         V1.set_files_table V1.set_badge_archivos V1.set_lastSource
         V1.set_uploadToken].
    destruct (V1.folderInput (V1.inp s)); [left; reflexivity|].
    split; [left; reflexivity | reflexivity].
  - unfold V1.mergeNow.
    destruct (negb _ && _); [exact Hs|].
    destruct (V1.lastSource (V1.mem s));
      match goal with |- context [if ?c then _ else _] => destruct c end;
      try exact Hs; (split; [exact Hs | exact I]).
  - unfold V1.cleanup.
    destruct (negb _); [exact Hs|]. split; [exact Hs | exact I].
Qed.

Lemma atomic_exclusive (h : V1.handler) (o : fetched) (s : V1.state) :
  V1.exclusive s -> V1.exclusive (V1.atomic h o s).
Proof.
  intros Hs. unfold V1.atomic.
  pose proof (call_tokens h s Hs) as Hc.
  destruct (V1.call h s) as [s'|s' rq k]; [exact Hc|].
  destruct Hc as [Hx Hk].
  pose proof (resume_tokens k o s') as Hr. simpl in Hr.
  unfold V1.exclusive in *.
  destruct k.
  - destruct Hr as [-> ->]. exact Hx.
  - rewrite Hr. right. exact Hk.
  - rewrite Hr. left. exact Hk.
  - destruct Hr as [-> ->]. exact Hx.
  - destruct Hr as [[-> ->] | [-> _]]; [exact Hx | left; reflexivity].
Qed.

Lemma step_waiting (e : V1.event) (w : V1.sys) :
  waiting_inv w ->
  match e with
  | V1.Click _ => is_empty (V1.inflight w)
  | _ => true
  end = true ->
  waiting_inv (V1.step e w).
Proof.
  intros [Hx Hf] Hc. destruct e as [f|flags|b|h|i o]; simpl.
  - split; [exact Hx | exact Hf].
  - split; [exact Hx | exact Hf].
  - destruct b; (split; [exact Hx | exact Hf]).
  - destruct (V1.inflight w) eqn:Ei; [|discriminate Hc].
    pose proof (call_tokens h _ Hx) as Hcall.
    destruct (V1.call h (V1.now w)) as [s'|s' rq k];
      unfold waiting_inv; simpl; rewrite ?Ei; simpl.
    + split; [exact Hcall | exact I].
    + destruct Hcall as [A B]. split; [exact A|].
      destruct k; auto.
  - destruct (V1.inflight w !! i) as [k|] eqn:Ei; [|split; assumption].
    destruct (V1.inflight w) as [|k0 [|k1 l]];
      [discriminate Ei | | destruct k0; contradiction].
    destruct i as [|i]; [|discriminate Ei]. injection Ei as ->.
    unfold waiting_inv; simpl. split; [|exact I].
    pose proof (resume_tokens k o (V1.now w)) as Hk. simpl in Hk.
    unfold V1.exclusive in *.
    destruct k; simpl in Hf.
    + destruct Hk as [-> ->]. exact Hx.
    + rewrite Hk. right. exact Hf.
    + rewrite Hk. left. exact Hf.
    + destruct Hk as [-> ->]. exact Hx.
    + destruct Hk as [[-> ->] | [-> _]]; [exact Hx | left; reflexivity].
Qed.

Lemma run_waiting (es : list V1.event) (w : V1.sys) :
  waiting_inv w -> V1.no_overlap es w = true -> waiting_inv (V1.run es w).
Proof.
  revert w. induction es as [|e es IH]; intros w Hw Hn; simpl; [exact Hw|].
  simpl in Hn. apply andb_true_iff in Hn as [Hc Hn].
  apply IH; [apply step_waiting; assumption | exact Hn].
Qed.

(** C9, as worded, fails: two upload scans that overlap leave both
    tokens set once both replies have arrived and no handler runs. *)
Lemma overlapping_scans_set_both_tokens :
  V1.inflight Sample.w1_overlapped = []
  /\ V1.uploadToken (V1.mem (V1.now Sample.w1_overlapped)) = JsStr "A"
  /\ V1.uploadDirToken (V1.mem (V1.now Sample.w1_overlapped)) = JsStr "B"
  /\ ~ V1.exclusive (V1.now Sample.w1_overlapped).
Proof.
  split; [reflexivity|]. split; [reflexivity|]. split; [reflexivity|].
  intros [H | H]; vm_compute in H; discriminate H.
Qed.

(** C9, amended. In variant 1, as long as no handler is started while a
    request is in flight, at most one of [uploadToken] and
    [uploadDirToken] is not null at every point: a scan of a folder
    nulls both, an upload scan nulls the token of the other kind before
    it may set its own, an answered cleanup nulls both, and every
    handler run to its end keeps the exclusion. *)
Theorem tokens_exclusive_without_overlap :
  (forall (h : V1.handler) (o : fetched) (s : V1.state),
     V1.exclusive s -> V1.exclusive (V1.atomic h o s))
  /\ (forall (o : fetched) (s : V1.state),
       V1.uploadToken (V1.mem (V1.atomic V1.ScanFolder o s)) = JsNull
       /\ V1.uploadDirToken (V1.mem (V1.atomic V1.ScanFolder o s)) = JsNull)
  /\ (forall (o : fetched) (s : V1.state),
       V1.uploadDirToken (V1.mem (V1.atomic V1.ScanUpload o s)) = JsNull)
  /\ (forall (o : fetched) (s : V1.state),
       V1.uploadToken (V1.mem (V1.atomic V1.ScanUploadDir o s)) = JsNull)
  /\ (forall (r : response) (s : V1.state) (t : string), held1 s t ->
       V1.uploadToken (V1.mem (V1.atomic V1.Cleanup (Resolved r) s)) = JsNull
       /\ V1.uploadDirToken (V1.mem (V1.atomic V1.Cleanup (Resolved r) s))
          = JsNull)
  /\ (forall (d : V1.page) (f : V1.form) (es : list V1.event),
       V1.no_overlap es (V1.boot d f) = true ->
       V1.exclusive (V1.now (V1.run es (V1.boot d f)))).
Proof.
  split; [exact atomic_exclusive|].
  split; [|split; [|split; [|split]]].
  - intros o s. unfold V1.atomic. simpl V1.call. unfold V1.scanFolder.
    match goal with
    | |- context [final (V1.resume V1.KScanFolder o ?x)] =>
      pose proof (resume_tokens V1.KScanFolder o x) as [A B]
    end.
    cbv zeta. rewrite A, B. split; reflexivity.
  - intros o s.
    pose proof (call_tokens V1.ScanUpload s) as Hc.
    unfold V1.atomic.
    assert (G : forall st, match st with
                           | V1.Finished s' =>
                             V1.uploadDirToken (V1.mem s') = JsNull
                           | V1.Awaiting s' _ k =>
                             k = V1.KScanUpload
                             /\ V1.uploadDirToken (V1.mem s') = JsNull
                           end ->
                           V1.uploadDirToken
                             (V1.mem match st with
                                     | V1.Finished s' => s'
                                     | V1.Awaiting s' _ k =>
                                       final (V1.resume k o s')
                                     end) = JsNull).
    { intros [s'|s' rq k]; [auto|]. intros [-> E].
      rewrite (resume_tokens V1.KScanUpload o s'). exact E. }
    apply G. simpl V1.call. unfold V1.scanUpload.
    cbn [V1.inp V1.set_whitelist V1.setBadges V1.drawFilesTable
         V1.set_files_table V1.set_badge_archivos V1.set_lastSource
         V1.set_uploadDirToken].
    destruct (V1.files (V1.inp s)); [reflexivity | split; reflexivity].
  - intros o s.
    unfold V1.atomic.
    assert (G : forall st, match st with
                           | V1.Finished s' =>
                             V1.uploadToken (V1.mem s') = JsNull
                           | V1.Awaiting s' _ k =>
                             k = V1.KScanUploadDir
                             /\ V1.uploadToken (V1.mem s') = JsNull
                           end ->
                           V1.uploadToken
                             (V1.mem match st with
                                     | V1.Finished s' => s'
                                     | V1.Awaiting s' _ k =>
                                       final (V1.resume k o s')
                                     end) = JsNull).
    { intros [s'|s' rq k]; [auto|]. intros [-> E].
      rewrite (resume_tokens V1.KScanUploadDir o s'). exact E. }
    apply G. simpl V1.call. unfold V1.scanUploadDir.
    cbn [V1.inp V1.set_whitelist V1.setBadges V1.drawFilesTable
         V1.set_files_table V1.set_badge_archivos V1.set_lastSource
         V1.set_uploadToken].
    destruct (V1.folderInput (V1.inp s)); [reflexivity | split; reflexivity].
  - intros r s t [Ht Hh]. unfold V1.atomic. simpl V1.call.
    unfold V1.cleanup.
    assert (T : truthy (js_or (V1.uploadToken (V1.mem s))
                              (V1.uploadDirToken (V1.mem s))) = true).
    { unfold js_or. destruct Hh as [E | [F E]].
      - rewrite E, (truthy_JsStr _ Ht). apply truthy_JsStr. exact Ht.
      - rewrite F, E. apply truthy_JsStr. exact Ht. }
    rewrite T. simpl. split; reflexivity.
  - intros d f es Hn.
    apply (run_waiting es (V1.boot d f)); [|exact Hn].
    split; [left; reflexivity | exact I].
Qed.

Lemma tokens_exclusive_without_overlap_witness :
  (V1.exclusive Sample.s1_dir
   /\ V1.exclusive
        (V1.atomic V1.ScanUpload (Resolved (Sample.uploaded "A"))
                   Sample.s1_dir))
  /\ (held1 Sample.s1_dir "tmp42"
      /\ V1.uploadDirToken
           (V1.mem (V1.atomic V1.Cleanup (Resolved Sample.ok_response)
                              Sample.s1_dir)) = JsNull)
  /\ (V1.no_overlap Sample.in_turn (V1.boot Sample.page1 Sample.form1) = true
      /\ V1.exclusive
           (V1.now (V1.run Sample.in_turn
                           (V1.boot Sample.page1 Sample.form1)))).
Proof.
  assert (X : V1.exclusive Sample.s1_dir) by (left; reflexivity).
  assert (T : held1 Sample.s1_dir "tmp42").
  { split; [discriminate|]. right. split; reflexivity. }
  assert (H : V1.no_overlap Sample.in_turn
                (V1.boot Sample.page1 Sample.form1) = true)
    by (vm_compute; reflexivity).
  destruct tokens_exclusive_without_overlap as (A & _ & _ & _ & B & C).
  split; [|split].
  - split; [exact X|]. exact (A _ _ _ X).
  - split; [exact T|]. exact (proj2 (B Sample.ok_response _ _ T)).
  - split; [exact H|]. exact (C Sample.page1 Sample.form1 Sample.in_turn H).
Defined.

Lemma filter_none {A : Type} (p : A -> bool) (l : list A) :
  Forall (fun x => p x = false) l -> List.filter p l = [].
Proof.
  induction 1 as [|x l Hx _ IH]; simpl; [reflexivity|].
  rewrite Hx. exact IH.
Qed.

(** C10. In variant 1 [scanUploadDir] looks at the chosen files before
    it filters them by extension: a folder that holds files, none of
    them a .docx, passes the check, and the scan-upload request goes out
    with the whitelist entries and no file. *)
Theorem scanUploadDir_sends_without_docx :
  forall s : V1.state,
    V1.folderInput (V1.inp s) <> [] ->
    Forall (fun f => V1.is_docx f = false) (V1.folderInput (V1.inp s)) ->
    exists (s' : V1.state) (fd : list (string * form_value)),
      V1.scanUploadDir s
      = V1.Awaiting s' {| url := "/api/scan-upload"; body := FormBody fd |}
                    V1.KScanUploadDir
      /\ form_texts "whitelist[]" fd = V1.TITULOS_WHITELIST
      /\ form_files fd = [].
Proof.
  intros s Hne Hall. unfold V1.scanUploadDir.
  cbn [V1.inp V1.set_whitelist V1.setBadges V1.drawFilesTable
       V1.set_files_table V1.set_badge_archivos V1.set_lastSource
       V1.set_uploadToken].
  rewrite (filter_none _ _ Hall).
  destruct (V1.folderInput (V1.inp s)) as [|f fs]; [contradiction|].
  eexists. eexists. split; [reflexivity|]. split; reflexivity.
Qed.

Lemma scanUploadDir_sends_without_docx_witness :
  V1.folderInput (V1.inp Sample.s1) <> []
  /\ Forall (fun f => V1.is_docx f = false) (V1.folderInput (V1.inp Sample.s1))
  /\ exists (s' : V1.state) (fd : list (string * form_value)),
      V1.scanUploadDir Sample.s1
      = V1.Awaiting s' {| url := "/api/scan-upload"; body := FormBody fd |}
                    V1.KScanUploadDir
      /\ form_texts "whitelist[]" fd = V1.TITULOS_WHITELIST
      /\ form_files fd = [].
Proof.
  assert (N : V1.folderInput (V1.inp Sample.s1) <> []) by discriminate.
  assert (F : Forall (fun f => V1.is_docx f = false)
                     (V1.folderInput (V1.inp Sample.s1))).
  { repeat constructor. }
  split; [exact N|]. split; [exact F|].
  exact (scanUploadDir_sends_without_docx Sample.s1 N F).
Defined.

(** * Further properties *)

(** ** URI component coding *)

Lemma escape_tokens (a : ascii) (r : list ascii) :
  tokens (escape a ++ r)%list = cons (Esc (code a)) <$> tokens r.
Proof.
  destruct a as [[] [] [] [] [] [] [] []]; reflexivity.
Qed.

Lemma unreserved_tokens (a : ascii) (r : list ascii) :
  unreserved a = true -> tokens (a :: r) = cons (Raw a) <$> tokens r.
Proof.
  destruct a as [[] [] [] [] [] [] [] []]; intros H;
    try discriminate H; reflexivity.
Qed.

Lemma tokens_encode (l : list ascii) :
  tokens (flat_map encode_byte l) = Some (map token_of l).
Proof.
  induction l as [|a l IH]; [reflexivity|].
  cbn [flat_map map]. unfold token_of.
  replace (encode_byte a)
    with (if unreserved a then [a] else escape a) by reflexivity.
  destruct (unreserved a) eqn:U.
  - cbn [app]. rewrite (unreserved_tokens _ _ U), IH. reflexivity.
  - rewrite escape_tokens, IH. reflexivity.
Qed.

Lemma high_byte_escaped (a : ascii) :
  (code a <? 128)%N = false -> token_of a = Esc (code a).
Proof.
  destruct a as [[] [] [] [] [] [] [] []]; intros H;
    try discriminate H; reflexivity.
Qed.

Lemma continuation_high (c : N) :
  continuation c = true -> (c <? 128)%N = false.
Proof.
  unfold continuation. intros H. apply andb_true_iff in H as [H _].
  apply N.leb_le in H. apply N.ltb_ge. exact H.
Qed.

Lemma decode_low (a : ascii) (r : list token) :
  (code a <? 128)%N = true ->
  decode_tokens (token_of a :: r) = cons a <$> decode_tokens r.
Proof.
  intros H. unfold token_of. destruct (unreserved a); [reflexivity|].
  cbn [decode_tokens]. rewrite H. unfold code. rewrite ascii_N_embedding.
  reflexivity.
Qed.

Lemma valid2_high (b c : N) : valid2 b c = true -> (c <? 128)%N = false.
Proof.
  unfold valid2. intros H. apply andb_true_iff in H as [_ H].
  apply continuation_high. exact H.
Qed.

Lemma valid3_high (b c d : N) :
  valid3 b c d = true -> (c <? 128)%N = false /\ (d <? 128)%N = false.
Proof.
  unfold valid3, continuation. intros H.
  split; apply N.ltb_ge;
    repeat match goal with
           | H : _ && _ = true |- _ => apply andb_true_iff in H as [? ?]
           | H : _ || _ = true |- _ => apply orb_true_iff in H as [? | ?]
           | H : (_ <=? _)%N = true |- _ => apply N.leb_le in H
           | H : (_ =? _)%N = true |- _ => apply N.eqb_eq in H
           end; lia.
Qed.

Lemma valid4_high (b c d e : N) :
  valid4 b c d e = true ->
  (c <? 128)%N = false /\ (d <? 128)%N = false /\ (e <? 128)%N = false.
Proof.
  unfold valid4, continuation. intros H.
  repeat split; apply N.ltb_ge;
    repeat match goal with
           | H : _ && _ = true |- _ => apply andb_true_iff in H as [? ?]
           | H : _ || _ = true |- _ => apply orb_true_iff in H as [? | ?]
           | H : (_ <=? _)%N = true |- _ => apply N.leb_le in H
           | H : (_ =? _)%N = true |- _ => apply N.eqb_eq in H
           end; lia.
Qed.

Lemma decode_token_of (n : nat) (l : list ascii) :
  (length l <= n)%nat -> utf8 l = true ->
  decode_tokens (map token_of l) = Some l.
Proof.
  revert l. induction n as [|n IH]; intros [|a r] Hn Hu;
    try reflexivity; [simpl in Hn; lia|].
  cbn [utf8] in Hu. cbn [map]. simpl in Hn.
  destruct (code a <? 128)%N eqn:E1.
  { rewrite (decode_low _ _ E1), IH; [reflexivity | lia | exact Hu]. }
  rewrite (high_byte_escaped _ E1). cbn [decode_tokens]. rewrite E1.
  destruct (code a <? 224)%N eqn:E2.
  { destruct r as [|c r2]; [discriminate Hu|].
    apply andb_true_iff in Hu as [V Hu].
    cbn [map]. rewrite (high_byte_escaped c (valid2_high _ _ V)), V.
    simpl in Hn. rewrite IH; [|lia | exact Hu].
    unfold code. rewrite !ascii_N_embedding. reflexivity. }
  destruct (code a <? 240)%N eqn:E3.
  { destruct r as [|c [|d r3]]; try discriminate Hu.
    apply andb_true_iff in Hu as [V Hu].
    destruct (valid3_high _ _ _ V) as [Hc Hd].
    cbn [map]. rewrite (high_byte_escaped c Hc), (high_byte_escaped d Hd), V.
    simpl in Hn. rewrite IH; [|lia | exact Hu].
    unfold code. rewrite !ascii_N_embedding. reflexivity. }
  destruct r as [|c [|d [|e r4]]]; try discriminate Hu.
  apply andb_true_iff in Hu as [V Hu].
  destruct (valid4_high _ _ _ _ V) as (Hc & Hd & He).
  cbn [map].
  rewrite (high_byte_escaped c Hc), (high_byte_escaped d Hd),
    (high_byte_escaped e He), V.
  simpl in Hn. rewrite IH; [|lia | exact Hu].
  unfold code. rewrite !ascii_N_embedding. reflexivity.
Qed.

(** Decoding what was encoded gives the text back. *)
Lemma decode_encode (s : string) :
  well_formed s -> decodeURIComponent (encodeURIComponent s) = Some s.
Proof.
  unfold well_formed, decodeURIComponent, encodeURIComponent. intros H.
  rewrite list_ascii_of_string_of_list_ascii, tokens_encode.
  cbn [mbind option_bind].
  rewrite (decode_token_of _ _ (le_n _) H).
  cbn [fmap option_fmap option_map].
  rewrite string_of_list_ascii_of_string. reflexivity.
Qed.

(** ** When a merge goes out *)

Lemma not_invalid1 (s : V1.state) :
  ~ invalid1 s ->
  (negb (V1.use_all (V1.inp s))
   && is_empty (selected_values (V1.whitelist (V1.doc s)))) = false
  /\ match V1.lastSource (V1.mem s) with
     | V1.SrcFolder => String.eqb (trim (V1.folder (V1.inp s))) "" = false
     | V1.SrcUpload => truthy (V1.uploadToken (V1.mem s)) = true
     | V1.SrcUploadDir => truthy (V1.uploadDirToken (V1.mem s)) = true
     end.
Proof.
  unfold invalid1. intros H. split.
  - destruct (V1.use_all (V1.inp s)) eqn:U; [reflexivity|].
    destruct (selected_values (V1.whitelist (V1.doc s))) eqn:E;
      [|reflexivity].
    exfalso. apply H. left. split; reflexivity.
  - destruct (V1.lastSource (V1.mem s)) eqn:L.
    + destruct (String.eqb_spec (trim (V1.folder (V1.inp s))) "");
        [|reflexivity].
      exfalso. apply H. right. left. split; [reflexivity | assumption].
    + destruct (truthy (V1.uploadToken (V1.mem s))) eqn:T; [reflexivity|].
      exfalso. apply H. right. right. left. split; reflexivity.
    + destruct (truthy (V1.uploadDirToken (V1.mem s))) eqn:T; [reflexivity|].
      exfalso. apply H. right. right. right. split; reflexivity.
Qed.

Lemma not_invalid2 (s : V2.state) :
  ~ invalid2 s ->
  (negb (V2.use_all (V2.inp s))
   && is_empty (selected_values (V2.titles (V2.doc s)))) = false
  /\ match V2.lastSource (V2.mem s) with
     | V2.SrcFolder => String.eqb (trim (V2.folder (V2.inp s))) "" = false
     | V2.SrcUpload => truthy (V2.uploadToken (V2.mem s)) = true
     end.
Proof.
  unfold invalid2. intros H. split.
  - destruct (V2.use_all (V2.inp s)) eqn:U; [reflexivity|].
    destruct (selected_values (V2.titles (V2.doc s))) eqn:E;
      [|reflexivity].
    exfalso. apply H. left. split; reflexivity.
  - destruct (V2.lastSource (V2.mem s)) eqn:L.
    + destruct (String.eqb_spec (trim (V2.folder (V2.inp s))) "");
        [|reflexivity].
      exfalso. apply H. right. left. split; [reflexivity | assumption].
    + destruct (truthy (V2.uploadToken (V2.mem s))) eqn:T; [reflexivity|].
      exfalso. apply H. right. right. split; reflexivity.
Qed.

(** X1. [mergeNow] sends a request exactly when none of its checks
    fails, in both variants; the request then goes to [/api/merge], the
    state gains the one log line "Generando ZIP..." and nothing else
    changes before the reply. *)
Theorem mergeNow_sends_iff_valid :
  (forall s : V1.state,
     (sends1 (V1.mergeNow s) <-> ~ invalid1 s)
     /\ (~ invalid1 s ->
         exists p, V1.mergeNow s
                   = V1.Awaiting (V1.log "Generando ZIP..." s)
                       (V1.merge_request p)
                       (V1.KMerge (V1.mode (V1.inp s)))))
  /\ (forall s : V2.state,
       (sends2 (V2.mergeNow s) <-> ~ invalid2 s)
       /\ (~ invalid2 s ->
           exists p, V2.mergeNow s
                     = V2.Awaiting (V2.log "Generando ZIP..." s)
                         (V2.merge_request p)
                         (V2.KMerge (V2.mode (V2.inp s))))).
Proof.
  split; intros s.
  - assert (G : ~ invalid1 s ->
                exists p, V1.mergeNow s
                          = V1.Awaiting (V1.log "Generando ZIP..." s)
                              (V1.merge_request p)
                              (V1.KMerge (V1.mode (V1.inp s)))).
    { intros H. destruct (not_invalid1 s H) as [E S].
      unfold V1.mergeNow. rewrite E.
      destruct (V1.lastSource (V1.mem s)); rewrite S; cbn [negb];
        eexists; reflexivity. }
    split; [|exact G]. split.
    + intros (s' & rq & k & E) I.
      destruct (mergeNow1_blocked s I) as (m & _ & F). congruence.
    + intros H. destruct (G H) as (p & E). rewrite E.
      eexists. eexists. eexists. reflexivity.
  - assert (G : ~ invalid2 s ->
                exists p, V2.mergeNow s
                          = V2.Awaiting (V2.log "Generando ZIP..." s)
                              (V2.merge_request p)
                              (V2.KMerge (V2.mode (V2.inp s)))).
    { intros H. destruct (not_invalid2 s H) as [E S].
      unfold V2.mergeNow. rewrite E.
      destruct (V2.lastSource (V2.mem s)); rewrite S; cbn [negb];
        eexists; reflexivity. }
    split; [|exact G]. split.
    + intros (s' & rq & k & E) I.
      destruct (mergeNow2_blocked s I) as (m & _ & F). congruence.
    + intros H. destruct (G H) as (p & E). rewrite E.
      eexists. eexists. eexists. reflexivity.
Qed.

(** ** What the continuations leave alone *)

Lemma resume_frame1 (k : V1.cont) (o : fetched) (s : V1.state) :
  V1.inp (final (V1.resume k o s)) = V1.inp s
  /\ V1.whitelist (V1.doc (final (V1.resume k o s)))
     = V1.whitelist (V1.doc s)
  /\ V1.lastSource (V1.mem (final (V1.resume k o s)))
     = V1.lastSource (V1.mem s).
Proof.
  destruct k; simpl;
    [unfold V1.scanFolder_k | unfold V1.scanUpload_k
     | unfold V1.scanUploadDir_k | unfold V1.mergeNow_k
     | unfold V1.cleanup_k];
    destruct o as [|r]; try (simpl; auto; fail);
    try (destruct (json_body r) as [js|]; [destruct (js_ok js)|];
         simpl; auto; fail).
  destruct (res_ok r); simpl; auto.
Qed.

Lemma resume_frame2 (k : V2.cont) (o : fetched) (s : V2.state) :
  V2.inp (final (V2.resume k o s)) = V2.inp s
  /\ V2.lastSource (V2.mem (final (V2.resume k o s)))
     = V2.lastSource (V2.mem s).
Proof.
  destruct k; simpl;
    [unfold V2.scanFolder_k | unfold V2.scanUpload_k
     | unfold V2.mergeNow_k | unfold V2.cleanup_k];
    destruct o as [|r]; try (simpl; auto; fail);
    try (destruct (json_body r) as [js|];
         [destruct (js_ok js); [destruct (js_titles js)|]|];
         simpl; auto; fail).
  destruct (res_ok r); simpl; auto.
Qed.

(** [mergeNow] reads the variables, the inputs and the selection, and
    nothing else. *)
Lemma mergeNow1_reads (s1 s2 : V1.state) :
  V1.mem s1 = V1.mem s2 -> V1.inp s1 = V1.inp s2 ->
  V1.whitelist (V1.doc s1) = V1.whitelist (V1.doc s2) ->
  match V1.mergeNow s1 with
  | V1.Finished _ => exists m, V1.mergeNow s2 = V1.Finished (V1.log m s2)
  | V1.Awaiting _ rq k =>
    V1.mergeNow s2 = V1.Awaiting (V1.log "Generando ZIP..." s2) rq k
  end.
Proof.
  intros Em Ei Ew. unfold V1.mergeNow. rewrite Em, Ei, Ew.
  destruct (negb _ && _); [eexists; reflexivity|].
  destruct (V1.lastSource (V1.mem s2));
    match goal with |- context [if ?c then _ else _] => destruct c end;
    try (eexists; reflexivity); reflexivity.
Qed.

Lemma mergeNow2_reads (s1 s2 : V2.state) :
  V2.mem s1 = V2.mem s2 -> V2.inp s1 = V2.inp s2 ->
  V2.titles (V2.doc s1) = V2.titles (V2.doc s2) ->
  match V2.mergeNow s1 with
  | V2.Finished _ => exists m, V2.mergeNow s2 = V2.Finished (V2.log m s2)
  | V2.Awaiting _ rq k =>
    V2.mergeNow s2 = V2.Awaiting (V2.log "Generando ZIP..." s2) rq k
  end.
Proof.
  intros Em Ei Ew. unfold V2.mergeNow. rewrite Em, Ei, Ew.
  destruct (negb _ && _); [eexists; reflexivity|].
  destruct (V2.lastSource (V2.mem s2));
    match goal with |- context [if ?c then _ else _] => destruct c end;
    try (eexists; reflexivity); reflexivity.
Qed.

Lemma mergeNow_k_frame1 (mode : string) (o : fetched) (s : V1.state) :
  V1.mem (final (V1.mergeNow_k mode o s)) = V1.mem s
  /\ V1.inp (final (V1.mergeNow_k mode o s)) = V1.inp s
  /\ V1.whitelist (V1.doc (final (V1.mergeNow_k mode o s)))
     = V1.whitelist (V1.doc s).
Proof.
  unfold V1.mergeNow_k. destruct o as [|r]; [simpl; auto|].
  destruct (res_ok r); simpl; auto.
Qed.

Lemma mergeNow_k_frame2 (mode : string) (o : fetched) (s : V2.state) :
  V2.mem (final (V2.mergeNow_k mode o s)) = V2.mem s
  /\ V2.inp (final (V2.mergeNow_k mode o s)) = V2.inp s
  /\ V2.titles (V2.doc (final (V2.mergeNow_k mode o s)))
     = V2.titles (V2.doc s).
Proof.
  unfold V2.mergeNow_k. destruct o as [|r]; [simpl; auto|].
  destruct (res_ok r); simpl; auto.
Qed.

(** X2. A merge does not use up what it was made from: once a merge
    request has been sent and has settled in whatever way (download,
    error reply, network failure), the same click sends the very same
    request again (both variants). *)
Theorem merge_can_be_repeated :
  (forall (s s' : V1.state) (rq : request) (k : V1.cont) (o : fetched),
     V1.mergeNow s = V1.Awaiting s' rq k ->
     V1.mergeNow (final (V1.resume k o s'))
     = V1.Awaiting (V1.log "Generando ZIP..." (final (V1.resume k o s')))
                   rq k)
  /\ (forall (s s' : V2.state) (rq : request) (k : V2.cont) (o : fetched),
     V2.mergeNow s = V2.Awaiting s' rq k ->
     V2.mergeNow (final (V2.resume k o s'))
     = V2.Awaiting (V2.log "Generando ZIP..." (final (V2.resume k o s')))
                   rq k).
Proof.
  split; intros s s' rq k o H.
  - assert (K : s' = V1.log "Generando ZIP..." s
                /\ k = V1.KMerge (V1.mode (V1.inp s))).
    { unfold V1.mergeNow in H. blocked.
      destruct (V1.lastSource (V1.mem s)); blocked;
        injection H as <- _ <-; split; reflexivity. }
    destruct K as [-> ->]. cbn [V1.resume].
    destruct (mergeNow_k_frame1 (V1.mode (V1.inp s)) o
                (V1.log "Generando ZIP..." s)) as (Em & Ei & Ew).
    pose proof (mergeNow1_reads s
                  (final (V1.mergeNow_k (V1.mode (V1.inp s)) o
                            (V1.log "Generando ZIP..." s)))) as R.
    rewrite H in R. apply R; symmetry; assumption.
  - assert (K : s' = V2.log "Generando ZIP..." s
                /\ k = V2.KMerge (V2.mode (V2.inp s))).
    { unfold V2.mergeNow in H. blocked.
      destruct (V2.lastSource (V2.mem s)); blocked;
        injection H as <- _ <-; split; reflexivity. }
    destruct K as [-> ->]. cbn [V2.resume].
    destruct (mergeNow_k_frame2 (V2.mode (V2.inp s)) o
                (V2.log "Generando ZIP..." s)) as (Em & Ei & Ew).
    pose proof (mergeNow2_reads s
                  (final (V2.mergeNow_k (V2.mode (V2.inp s)) o
                            (V2.log "Generando ZIP..." s)))) as R.
    rewrite H in R. apply R; symmetry; assumption.
Qed.

(** ** Scans, tokens and the merge that follows *)


Lemma scan_call_whitelist1 (h : V1.handler) (s : V1.state) :
  scans1 h ->
  V1.whitelist (V1.doc (started_state1 (V1.call h s)))
  = deselect_all (V1.whitelist (V1.doc s))
  /\ V1.inp (started_state1 (V1.call h s)) = V1.inp s.
Proof.
  intros [-> | [-> | ->]]; cbn [V1.call].
  - split; reflexivity.
  - unfold V1.scanUpload.
    cbn [V1.inp V1.set_whitelist V1.setBadges V1.drawFilesTable
         V1.set_files_table V1.set_badge_archivos V1.set_lastSource
         V1.set_uploadDirToken].
    destruct (V1.files (V1.inp s)); split; reflexivity.
  - unfold V1.scanUploadDir.
    cbn [V1.inp V1.set_whitelist V1.setBadges V1.drawFilesTable
         V1.set_files_table V1.set_badge_archivos V1.set_lastSource
         V1.set_uploadToken].
    destruct (V1.folderInput (V1.inp s)); split; reflexivity.
Qed.









(** X6. [cleanup] is final: once its request has been answered, a
    second [cleanup] sends nothing and a merge from an upload source is
    refused with a prompt, until a new upload scan brings a token (both
    variants). *)
Theorem cleanup_is_final :
  (forall (r : response) (s : V1.state),
     V1.cleanup (final (V1.cleanup_k (Resolved r) s))
     = V1.Finished (V1.log nothing_to_clean
                           (final (V1.cleanup_k (Resolved r) s)))
     /\ (V1.lastSource (V1.mem s) <> V1.SrcFolder ->
         exists m, In m merge_prompts
           /\ V1.mergeNow (final (V1.cleanup_k (Resolved r) s))
              = V1.Finished (V1.log m (final (V1.cleanup_k (Resolved r) s)))))
  /\ (forall (r : response) (s : V2.state),
       V2.cleanup (final (V2.cleanup_k (Resolved r) s))
       = V2.Finished (V2.log nothing_to_clean
                             (final (V2.cleanup_k (Resolved r) s)))
       /\ (V2.lastSource (V2.mem s) <> V2.SrcFolder ->
           exists m, In m merge_prompts
             /\ V2.mergeNow (final (V2.cleanup_k (Resolved r) s))
                = V2.Finished
                    (V2.log m (final (V2.cleanup_k (Resolved r) s))))).
Proof.
  split; intros r s.
  - split; [reflexivity|]. intros Hs.
    apply mergeNow1_blocked. unfold invalid1.
    destruct (V1.lastSource (V1.mem s)) eqn:L; [contradiction| |].
    + right. right. left. split; [exact L | reflexivity].
    + right. right. right. split; [exact L | reflexivity].
  - split; [reflexivity|]. intros Hs.
    apply mergeNow2_blocked. unfold invalid2.
    destruct (V2.lastSource (V2.mem s)) eqn:L; [contradiction|].
    right. right. split; [exact L | reflexivity].
Qed.

(** X7. When both tokens of variant 1 are held, [cleanup] posts
    [uploadToken] only; the answered request nulls both, so the token
    of the uploaded folder is dropped without ever being posted. *)
Theorem cleanup_posts_one_token :
  forall (s : V1.state) (a b : string) (r : response),
    V1.uploadToken (V1.mem s) = JsStr a -> a <> "" ->
    V1.uploadDirToken (V1.mem s) = JsStr b ->
    V1.cleanup s = V1.Awaiting s (cleanup_request a) V1.KCleanup
    /\ V1.uploadDirToken (V1.mem (V1.atomic V1.Cleanup (Resolved r) s))
       = JsNull
    /\ V1.cleanup (V1.atomic V1.Cleanup (Resolved r) s)
       = V1.Finished (V1.log nothing_to_clean
                             (V1.atomic V1.Cleanup (Resolved r) s)).
Proof.
  intros s a b r Ha Hne Hb.
  assert (C : V1.cleanup s = V1.Awaiting s (cleanup_request a) V1.KCleanup).
  { unfold V1.cleanup, js_or. rewrite Ha, (truthy_JsStr _ Hne). cbv iota.
    rewrite (truthy_JsStr _ Hne). reflexivity. }
  split; [exact C|].
  unfold V1.atomic. cbn [V1.call]. rewrite C. split; reflexivity.
Qed.

(** ** What every run keeps *)

Lemma append_nil_r (s : string) : s +:+ "" = s.
Proof.
  induction s as [|a s IH]; [reflexivity|].
  change (String a (s +:+ "") = String a s). f_equal. exact IH.
Qed.

Lemma append_assoc (a b c : string) : (a +:+ b) +:+ c = a +:+ b +:+ c.
Proof.
  induction a as [|x a IH]; [reflexivity|].
  change (String x ((a +:+ b) +:+ c) = String x (a +:+ b +:+ c)).
  f_equal. exact IH.
Qed.

Lemma extends_refl (s : string) : extends s s.
Proof. exists "". symmetry. apply append_nil_r. Qed.

Lemma extends_trans (a b c : string) :
  extends a b -> extends b c -> extends a c.
Proof.
  intros [t ->] [u ->]. exists (t +:+ u). apply append_assoc.
Qed.

Lemma pick_values (flags : list bool) (os : list option_el) :
  map value (pick flags os) = map value os.
Proof.
  revert flags. induction os as [|o os IH]; intros [|b flags]; simpl;
    try reflexivity. f_equal. apply IH.
Qed.

Lemma run_keeps1 (P : V1.state -> Prop) :
  (forall e w, P (V1.now w) -> P (V1.now (V1.step e w))) ->
  forall es w, P (V1.now w) -> P (V1.now (V1.run es w)).
Proof.
  intros Hs es. induction es as [|e es IH]; intros w Hw; [exact Hw|].
  simpl. apply IH, Hs, Hw.
Qed.

Lemma run_keeps2 (P : V2.state -> Prop) :
  (forall e w, P (V2.now w) -> P (V2.now (V2.step e w))) ->
  forall es w, P (V2.now w) -> P (V2.now (V2.run es w)).
Proof.
  intros Hs es. induction es as [|e es IH]; intros w Hw; [exact Hw|].
  simpl. apply IH, Hs, Hw.
Qed.

(** A property of the state is kept by every event when the user's
    edits, the handlers and the continuations keep it. *)
Lemma step_keeps1 (P : V1.state -> Prop) :
  (forall f s, P s -> P (V1.set_inp f s)) ->
  (forall os s, map value os = map value (V1.whitelist (V1.doc s)) ->
                P s -> P (V1.set_whitelist os s)) ->
  (forall h s, P s -> P (started_state1 (V1.call h s))) ->
  (forall k o s, P s -> P (final (V1.resume k o s))) ->
  forall e w, P (V1.now w) -> P (V1.now (V1.step e w)).
Proof.
  intros Hi Hw Hc Hr e w H. destruct e as [f|flags|b|h|i o]; simpl.
  - apply Hi, H.
  - apply Hw; [apply pick_values | exact H].
  - unfold V1.use_all_change, V1.check_use_all. destruct b.
    + apply Hw; [apply deselect_all_none | apply Hi, H].
    + apply Hi, H.
  - specialize (Hc h _ H). destruct (V1.call h (V1.now w)); exact Hc.
  - destruct (V1.inflight w !! i); [apply Hr, H | exact H].
Qed.

Lemma step_keeps2 (P : V2.state -> Prop) :
  (forall f s, P s -> P (V2.set_inp f s)) ->
  (forall os s, map value os = map value (V2.titles (V2.doc s)) ->
                P s -> P (V2.set_titles os s)) ->
  (forall s, P s -> P (V2.level_change s)) ->
  (forall h s, P s -> P (started_state2 (V2.call h s))) ->
  (forall k o s, P s -> P (final (V2.resume k o s))) ->
  forall e w, P (V2.now w) -> P (V2.now (V2.step e w)).
Proof.
  intros Hi Hw Hl Hc Hr e w H. destruct e as [f|flags|b|v|h|i o]; simpl.
  - apply Hi, H.
  - apply Hw; [apply pick_values | exact H].
  - unfold V2.use_all_change, V2.check_use_all. destruct b.
    + apply Hw; [apply deselect_all_none | apply Hi, H].
    + apply Hi, H.
  - apply Hl. apply Hi, H.
  - specialize (Hc h _ H). destruct (V2.call h (V2.now w)); exact Hc.
  - destruct (V2.inflight w !! i); [apply Hr, H | exact H].
Qed.

Ltac grows :=
  first [ eexists; reflexivity | apply extends_refl ].

Lemma call_extends1 (h : V1.handler) (s : V1.state) :
  extends (V1.log_text (V1.doc s))
          (V1.log_text (V1.doc (started_state1 (V1.call h s)))).
Proof.
  destruct h; cbn [V1.call].
  - grows.
  - unfold V1.scanUpload.
    cbn [V1.inp V1.set_whitelist V1.setBadges V1.drawFilesTable
         V1.set_files_table V1.set_badge_archivos V1.set_lastSource
         V1.set_uploadDirToken].
    destruct (V1.files (V1.inp s)); grows.
  - unfold V1.scanUploadDir.
    cbn [V1.inp V1.set_whitelist V1.setBadges V1.drawFilesTable
         V1.set_files_table V1.set_badge_archivos V1.set_lastSource
         V1.set_uploadToken].
    destruct (V1.folderInput (V1.inp s)); grows.
  - unfold V1.mergeNow.
    destruct (negb _ && _); [grows|].
    destruct (V1.lastSource (V1.mem s));
      match goal with |- context [if ?c then _ else _] => destruct c end;
      grows.
  - unfold V1.cleanup. destruct (negb _); grows.
Qed.

Lemma resume_extends1 (k : V1.cont) (o : fetched) (s : V1.state) :
  extends (V1.log_text (V1.doc s))
          (V1.log_text (V1.doc (final (V1.resume k o s)))).
Proof.
  destruct k; cbn [V1.resume];
    [unfold V1.scanFolder_k | unfold V1.scanUpload_k
     | unfold V1.scanUploadDir_k | unfold V1.mergeNow_k
     | unfold V1.cleanup_k];
    destruct o as [|r]; try grows;
    try (destruct (json_body r) as [js|]; [destruct (js_ok js)|]; grows).
  destruct (res_ok r); grows.
Qed.

Lemma call_extends2 (h : V2.handler) (s : V2.state) :
  extends (V2.log_text (V2.doc s))
          (V2.log_text (V2.doc (started_state2 (V2.call h s)))).
Proof.
  destruct h; cbn [V2.call].
  - grows.
  - unfold V2.scanUpload.
    cbn [V2.inp V2.set_titles V2.setBadges V2.drawFilesTable
         V2.set_files_table V2.set_badges V2.set_lastSource].
    destruct (V2.files (V2.inp s)); grows.
  - unfold V2.mergeNow.
    destruct (negb _ && _); [grows|].
    destruct (V2.lastSource (V2.mem s));
      match goal with |- context [if ?c then _ else _] => destruct c end;
      grows.
  - unfold V2.cleanup. destruct (negb _); grows.
Qed.

Lemma resume_extends2 (k : V2.cont) (o : fetched) (s : V2.state) :
  extends (V2.log_text (V2.doc s))
          (V2.log_text (V2.doc (final (V2.resume k o s)))).
Proof.
  destruct k; cbn [V2.resume];
    [unfold V2.scanFolder_k | unfold V2.scanUpload_k
     | unfold V2.mergeNow_k | unfold V2.cleanup_k];
    destruct o as [|r]; try grows;
    try (destruct (json_body r) as [js|];
         [destruct (js_ok js); [destruct (js_titles js)|]|]; grows).
  destruct (res_ok r); grows.
Qed.

(** X8. The log only grows: whatever the user does and however the
    requests settle, also when handlers overlap, the text of [#log]
    after a run is the text before it with lines added at the end
    (both variants). *)
Theorem log_only_grows :
  (forall (es : list V1.event) (w : V1.sys),
     extends (V1.log_text (V1.doc (V1.now w)))
             (V1.log_text (V1.doc (V1.now (V1.run es w)))))
  /\ (forall (es : list V2.event) (w : V2.sys),
       extends (V2.log_text (V2.doc (V2.now w)))
               (V2.log_text (V2.doc (V2.now (V2.run es w))))).
Proof.
  split; intros es w.
  - pose (P := fun s : V1.state =>
                 extends (V1.log_text (V1.doc (V1.now w)))
                         (V1.log_text (V1.doc s))).
    apply (run_keeps1 P); [|apply extends_refl].
    apply (step_keeps1 P); unfold P.
    + intros f s H. exact H.
    + intros os s _ H. exact H.
    + intros h s H. eapply extends_trans; [exact H | apply call_extends1].
    + intros k o s H. eapply extends_trans; [exact H | apply resume_extends1].
  - pose (P := fun s : V2.state =>
                 extends (V2.log_text (V2.doc (V2.now w)))
                         (V2.log_text (V2.doc s))).
    apply (run_keeps2 P); [|apply extends_refl].
    apply (step_keeps2 P); unfold P.
    + intros f s H. exact H.
    + intros os s _ H. exact H.
    + intros s H. eapply extends_trans; [exact H|]. eexists. reflexivity.
    + intros h s H. eapply extends_trans; [exact H | apply call_extends2].
    + intros k o s H. eapply extends_trans; [exact H | apply resume_extends2].
Qed.

Lemma selected_among_values (os : list option_el) (t : string) :
  In t (selected_values os) -> In t (map value os).
Proof.
  unfold selected_values. induction os as [|o os IH]; simpl; [tauto|].
  destruct (selected o); simpl; tauto.
Qed.

Lemma call_whitelist_values (h : V1.handler) (s : V1.state) :
  map value (V1.whitelist (V1.doc (started_state1 (V1.call h s))))
  = map value (V1.whitelist (V1.doc s)).
Proof.
  destruct h.
  - apply (deselect_all_none (V1.whitelist (V1.doc s))).
  - rewrite (proj1 (scan_call_whitelist1 V1.ScanUpload s
                      (or_intror (or_introl eq_refl)))).
    apply deselect_all_none.
  - rewrite (proj1 (scan_call_whitelist1 V1.ScanUploadDir s
                      (or_intror (or_intror eq_refl)))).
    apply deselect_all_none.
  - cbn [V1.call]. unfold V1.mergeNow.
    destruct (negb _ && _); [reflexivity|].
    destruct (V1.lastSource (V1.mem s));
      match goal with |- context [if ?c then _ else _] => destruct c end;
      reflexivity.
  - cbn [V1.call]. unfold V1.cleanup. destruct (negb _); reflexivity.
Qed.

Lemma whitelist_values_kept (d : V1.page) (f : V1.form)
      (es : list V1.event) :
  map value (V1.whitelist (V1.doc (V1.now (V1.run es (V1.boot d f)))))
  = V1.TITULOS_WHITELIST.
Proof.
  pose (P := fun s : V1.state =>
               map value (V1.whitelist (V1.doc s)) = V1.TITULOS_WHITELIST).
  apply (run_keeps1 P).
  - apply (step_keeps1 P); unfold P.
    + intros g s H. exact H.
    + intros os s E H. cbn. rewrite E. exact H.
    + intros h s H. rewrite call_whitelist_values. exact H.
    + intros k o s H.
      destruct (resume_frame1 k o s) as (_ & E & _). rewrite E. exact H.
  - unfold P. reflexivity.
Qed.

(** X9. Variant 1 never asks for a title outside the fixed whitelist:
    in every state the page can reach from loading, also with
    overlapping handlers, the options of the list are the whitelist in
    its order, and every title of a merge request sent from there is one
    of its entries. *)
Theorem merge_titles_within_whitelist :
  forall (d : V1.page) (f : V1.form) (es : list V1.event)
         (s' : V1.state) (rq : request) (k : V1.cont),
    V1.mergeNow (V1.now (V1.run es (V1.boot d f))) = V1.Awaiting s' rq k ->
    map value (V1.whitelist (V1.doc (V1.now (V1.run es (V1.boot d f)))))
    = V1.TITULOS_WHITELIST
    /\ exists p ts, body rq = JsonBody p
         /\ p !! "titles" = Some (JStrings ts)
         /\ forall t, In t ts -> In t V1.TITULOS_WHITELIST.
Proof.
  intros d f es s' rq k H.
  pose proof (whitelist_values_kept d f es) as W.
  split; [exact W|].
  destruct (mergeNow1_sent _ _ _ _ H) as (p & -> & _ & Ht & _ & _).
  exists p. eexists. split; [reflexivity|]. split; [exact Ht|].
  intros t Hin.
  destruct (V1.use_all _); [exact Hin|].
  rewrite <- W. apply selected_among_values. exact Hin.
Qed.

(** ** The table and the metadata *)





(** ** The badges of variant 2 *)






(** ** The token and the source *)

Lemma call_source (h : V1.handler) (s : V1.state) :
  source_agrees s ->
  match V1.call h s with
  | V1.Finished s' => source_agrees s'
  | V1.Awaiting s' _ k =>
    source_agrees s'
    /\ match k with
       | V1.KScanUpload => V1.lastSource (V1.mem s') = V1.SrcUpload
       | V1.KScanUploadDir => V1.lastSource (V1.mem s') = V1.SrcUploadDir
       | _ => True
       end
  end.
Proof.
  intros Hs. destruct h; cbn [V1.call].
  - split; [split; reflexivity | exact I].
  - unfold V1.scanUpload.
    cbn [V1.inp V1.set_whitelist V1.setBadges V1.drawFilesTable
         V1.set_files_table V1.set_badge_archivos V1.set_lastSource
         V1.set_uploadDirToken].
    destruct (V1.files (V1.inp s)); [reflexivity|].
    split; reflexivity.
  - unfold V1.scanUploadDir.
    cbn [V1.inp V1.set_whitelist V1.setBadges V1.drawFilesTable
         V1.set_files_table V1.set_badge_archivos V1.set_lastSource
         V1.set_uploadToken].
    destruct (V1.folderInput (V1.inp s)); [reflexivity|].
    split; reflexivity.
  - unfold V1.mergeNow.
    destruct (negb _ && _); [exact Hs|].
    destruct (V1.lastSource (V1.mem s)) eqn:L;
      match goal with |- context [if ?c then _ else _] => destruct c end;
      try exact Hs; (split; [exact Hs | exact I]).
  - unfold V1.cleanup.
    destruct (negb _); [exact Hs|]. split; [exact Hs | exact I].
Qed.

Lemma resume_source (k : V1.cont) (o : fetched) (s : V1.state) :
  source_agrees s ->
  match k with
  | V1.KScanUpload => V1.lastSource (V1.mem s) = V1.SrcUpload
  | V1.KScanUploadDir => V1.lastSource (V1.mem s) = V1.SrcUploadDir
  | _ => True
  end ->
  source_agrees (final (V1.resume k o s)).
Proof.
  intros H Hk.
  destruct (resume_frame1 k o s) as (_ & _ & Es).
  pose proof (resume_tokens k o s) as Ht. cbv zeta in Ht.
  unfold source_agrees in *. rewrite Es.
  destruct k.
  - destruct Ht as [-> ->]. exact H.
  - rewrite Hk in *. rewrite Ht. exact H.
  - rewrite Hk in *. rewrite Ht. exact H.
  - destruct Ht as [-> ->]. exact H.
  - destruct Ht as [[-> ->] | [-> ->]]; [exact H|].
    destruct (V1.lastSource (V1.mem s)); auto.
Qed.

Lemma step_waiting_source (e : V1.event) (w : V1.sys) :
  waiting_source w ->
  match e with
  | V1.Click _ => is_empty (V1.inflight w)
  | _ => true
  end = true ->
  waiting_source (V1.step e w).
Proof.
  intros [Hx Hf] Hc. destruct e as [f|flags|b|h|i o]; simpl.
  - split; [exact Hx | exact Hf].
  - split; [exact Hx | exact Hf].
  - destruct b; (split; [exact Hx | exact Hf]).
  - destruct (V1.inflight w) eqn:Ei; [|discriminate Hc].
    pose proof (call_source h _ Hx) as Hcall.
    destruct (V1.call h (V1.now w)) as [s'|s' rq k];
      unfold waiting_source; simpl; rewrite ?Ei; simpl.
    + split; [exact Hcall | exact I].
    + destruct Hcall as [A B]. split; [exact A|].
      destruct k; auto.
  - destruct (V1.inflight w !! i) as [k|] eqn:Ei; [|split; assumption].
    destruct (V1.inflight w) as [|k0 [|k1 l]];
      [discriminate Ei | | destruct k0; contradiction].
    destruct i as [|i]; [|discriminate Ei]. injection Ei as ->.
    unfold waiting_source; simpl. split; [|exact I].
    apply resume_source; [exact Hx|]. destruct k; auto.
Qed.

Lemma run_waiting_source (es : list V1.event) (w : V1.sys) :
  waiting_source w -> V1.no_overlap es w = true ->
  waiting_source (V1.run es w).
Proof.
  revert w. induction es as [|e es IH]; intros w Hw Hn; simpl; [exact Hw|].
  simpl in Hn. apply andb_true_iff in Hn as [Hc Hn].
  apply IH; [apply step_waiting_source; assumption | exact Hn].
Qed.

Lemma json_of_jsval_string (v : jsval) (t : string) :
  json_of_jsval v = JString t -> v = JsStr t.
Proof. destruct v; simpl; intros H; try discriminate H. congruence. Qed.

(** X12. In variant 1, as long as no handler is started while a request
    is in flight, the only token that can be held is the one of the
    active source (none for a folder), so the token a merge sends is
    the very token [cleanup] would release in that state. *)
Theorem merge_and_cleanup_use_one_token :
  forall (d : V1.page) (f : V1.form) (es : list V1.event),
    V1.no_overlap es (V1.boot d f) = true ->
    source_agrees (V1.now (V1.run es (V1.boot d f)))
    /\ forall (s' : V1.state) (rq : request) (k : V1.cont) (t : string),
         V1.mergeNow (V1.now (V1.run es (V1.boot d f)))
         = V1.Awaiting s' rq k ->
         carries_token rq t ->
         V1.cleanup (V1.now (V1.run es (V1.boot d f)))
         = V1.Awaiting (V1.now (V1.run es (V1.boot d f)))
                       (cleanup_request t) V1.KCleanup.
Proof.
  intros d f es Hn.
  assert (S : source_agrees (V1.now (V1.run es (V1.boot d f)))).
  { apply (run_waiting_source es (V1.boot d f)); [|exact Hn].
    split; [split; reflexivity | exact I]. }
  split; [exact S|].
  generalize dependent (V1.now (V1.run es (V1.boot d f))).
  intros s S s' rq k t H (p & Hb & Hp).
  destruct (mergeNow1_sent _ _ _ _ H) as (q & -> & _ & _ & _ & Hq).
  injection Hb as <-.
  assert (V : ~ invalid1 s).
  { intros I. destruct (mergeNow1_blocked s I) as (m & _ & F). congruence. }
  destruct (not_invalid1 s V) as [_ T].
  unfold source_agrees in S. unfold V1.cleanup, js_or.
  destruct (V1.lastSource (V1.mem s)).
  - destruct Hq as (_ & _ & N). congruence.
  - destruct Hq as (Hq & _). rewrite Hq in Hp. injection Hp as Hp.
    apply json_of_jsval_string in Hp. rewrite Hp in *.
    rewrite T. cbv iota. rewrite T. reflexivity.
  - destruct Hq as (Hq & _). rewrite Hq in Hp. injection Hp as Hp.
    apply json_of_jsval_string in Hp. rewrite S, Hp in *.
    change (truthy JsNull) with false. cbv iota. rewrite T. reflexivity.
Qed.

(** ** The download of a merge *)

Lemma passive_run1 (es : list V1.event) (w : V1.sys) :
  forallb passive1 es = true ->
  V1.inflight (V1.run es w) = V1.inflight w
  /\ V1.downloads (V1.doc (V1.now (V1.run es w)))
     = V1.downloads (V1.doc (V1.now w)).
Proof.
  revert w. induction es as [|e es IH]; intros w H; [split; reflexivity|].
  simpl in H. apply andb_true_iff in H as [He H].
  simpl. destruct (IH (V1.step e w) H) as [-> ->].
  destruct e as [f|flags|b|h|i o]; try discriminate He.
  - split; reflexivity.
  - split; reflexivity.
  - destruct b; split; reflexivity.
Qed.

Lemma passive_run2 (es : list V2.event) (w : V2.sys) :
  forallb passive2 es = true ->
  V2.inflight (V2.run es w) = V2.inflight w
  /\ V2.downloads (V2.doc (V2.now (V2.run es w)))
     = V2.downloads (V2.doc (V2.now w)).
Proof.
  revert w. induction es as [|e es IH]; intros w H; [split; reflexivity|].
  simpl in H. apply andb_true_iff in H as [He H].
  simpl. destruct (IH (V2.step e w) H) as [-> ->].
  destruct e as [f|flags|b|v|h|i o]; try discriminate He.
  - split; reflexivity.
  - split; reflexivity.
  - destruct b; split; reflexivity.
  - split; reflexivity.
Qed.

Lemma mergeNow1_started (s s' : V1.state) (rq : request) (k : V1.cont) :
  V1.mergeNow s = V1.Awaiting s' rq k ->
  s' = V1.log "Generando ZIP..." s /\ k = V1.KMerge (V1.mode (V1.inp s)).
Proof.
  intros H. unfold V1.mergeNow in H. blocked.
  destruct (V1.lastSource (V1.mem s)); blocked;
    injection H as <- _ <-; split; reflexivity.
Qed.

Lemma mergeNow2_started (s s' : V2.state) (rq : request) (k : V2.cont) :
  V2.mergeNow s = V2.Awaiting s' rq k ->
  s' = V2.log "Generando ZIP..." s /\ k = V2.KMerge (V2.mode (V2.inp s)).
Proof.
  intros H. unfold V2.mergeNow in H. blocked.
  destruct (V2.lastSource (V2.mem s)); blocked;
    injection H as <- _ <-; split; reflexivity.
Qed.

(** X13. The ZIP is named after the mode that was checked when the
    merge was requested: whatever the user fills, picks or toggles
    while the request is in flight, a reply that is ok starts exactly
    one download, "unificado.zip" for the mode "unificado" and
    "por_titulo.zip" otherwise, and a reply that is not ok starts none
    (both variants). *)
Theorem download_named_by_mode_at_click :
  (forall (w : V1.sys) (s' : V1.state) (rq : request) (k : V1.cont)
          (es : list V1.event) (r : response),
     V1.mergeNow (V1.now w) = V1.Awaiting s' rq k ->
     forallb passive1 es = true ->
     V1.downloads
       (V1.doc (V1.now (V1.step
                          (V1.Settle (length (V1.inflight w)) (Resolved r))
                          (V1.run es (V1.step (V1.Click V1.MergeNow) w)))))
     = (V1.downloads (V1.doc (V1.now w))
        ++ (if res_ok r then [zip_name (V1.mode (V1.inp (V1.now w)))]
            else []))%list)
  /\ (forall (w : V2.sys) (s' : V2.state) (rq : request) (k : V2.cont)
            (es : list V2.event) (r : response),
       V2.mergeNow (V2.now w) = V2.Awaiting s' rq k ->
       forallb passive2 es = true ->
       V2.downloads
         (V2.doc (V2.now (V2.step
                            (V2.Settle (length (V2.inflight w)) (Resolved r))
                            (V2.run es (V2.step (V2.Click V2.MergeNow) w)))))
       = (V2.downloads (V2.doc (V2.now w))
          ++ (if res_ok r then [zip_name (V2.mode (V2.inp (V2.now w)))]
              else []))%list).
Proof.
  split; intros w s' rq k es r H Hp.
  - destruct (mergeNow1_started _ _ _ _ H) as [-> ->].
    assert (Ec : V1.step (V1.Click V1.MergeNow) w
                 = {| V1.now := V1.log "Generando ZIP..." (V1.now w);
                      V1.inflight :=
                        (V1.inflight w
                         ++ [V1.KMerge (V1.mode (V1.inp (V1.now w)))])%list;
                      V1.sent := (V1.sent w ++ [rq])%list |}).
    { cbn [V1.step V1.call]. rewrite H. reflexivity. }
    rewrite Ec.
    match goal with
    | |- context [V1.run es ?x] =>
      destruct (passive_run1 es x Hp) as [Ei Ed]; set (w1 := V1.run es x) in *
    end.
    cbn [V1.inflight V1.now] in Ei, Ed.
    cbn [V1.step]. rewrite Ei, list_lookup_middle by reflexivity.
    cbn [V1.now V1.resume]. unfold V1.mergeNow_k.
    destruct (res_ok r); cbn [negb final].
    + cbn. rewrite Ed. reflexivity.
    + cbn. rewrite Ed. cbn. rewrite app_nil_r. reflexivity.
  - destruct (mergeNow2_started _ _ _ _ H) as [-> ->].
    assert (Ec : V2.step (V2.Click V2.MergeNow) w
                 = {| V2.now := V2.log "Generando ZIP..." (V2.now w);
                      V2.inflight :=
                        (V2.inflight w
                         ++ [V2.KMerge (V2.mode (V2.inp (V2.now w)))])%list;
                      V2.sent := (V2.sent w ++ [rq])%list |}).
    { cbn [V2.step V2.call]. rewrite H. reflexivity. }
    rewrite Ec.
    match goal with
    | |- context [V2.run es ?x] =>
      destruct (passive_run2 es x Hp) as [Ei Ed]; set (w1 := V2.run es x) in *
    end.
    cbn [V2.inflight V2.now] in Ei, Ed.
    cbn [V2.step]. rewrite Ei, list_lookup_middle by reflexivity.
    cbn [V2.now V2.resume]. unfold V2.mergeNow_k.
    destruct (res_ok r); cbn [negb final].
    + cbn. rewrite Ed. reflexivity.
    + cbn. rewrite Ed. cbn. rewrite app_nil_r. reflexivity.
Qed.

(** ** The preview of a file *)

Lemma find_first_by_name (metas : list file_meta) (f : file_meta) :
  In f metas ->
  exists pre m post,
    metas = (pre ++ m :: post)%list
    /\ fm_name m = fm_name f
    /\ (forall x, In x pre -> fm_name x <> fm_name f)
    /\ find_meta (fm_name f) metas = Some m.
Proof.
  induction metas as [|g metas IH]; [intros []|].
  intros Hin. unfold find_meta. cbn [find].
  destruct (String.eqb_spec (fm_name g) (fm_name f)) as [E | N].
  - exists [], g, metas. repeat split; [exact E | intros x []].
  - destruct Hin as [-> | Hin]; [contradiction N; reflexivity|].
    destruct (IH Hin) as (pre & m & post & -> & Em & Hpre & Hf).
    exists (g :: pre), m, post. repeat split; [exact Em | | exact Hf].
    intros x [<- | Hx]; [exact N | apply Hpre, Hx].
Qed.

(** X14. The button of a row opens the preview of that file: for an
    entry of [lastFilesMeta] with a well-formed name, a click on the
    button [drawFilesTable] drew for it shows the name and the titles
    (or the notice, when there are none) of the first entry of that
    name, which is another entry when names repeat (both variants). *)
Theorem preview_of_row :
  (forall (s : V1.state) (f : file_meta),
     In f (V1.lastFilesMeta (V1.mem s)) -> well_formed (fm_name f) ->
     exists pre m post,
       V1.lastFilesMeta (V1.mem s) = (pre ++ m :: post)%list
       /\ fm_name m = fm_name f
       /\ (forall x, In x pre -> fm_name x <> fm_name f)
       /\ Preview1.files_table_click (Some (data_name f)) s
          = Some {| preview_file := fm_name f;
                    preview_list :=
                      match fm_titles m with
                      | [] => [LiNone Preview1.notice]
                      | ts => map LiTitle ts
                      end |})
  /\ (forall (s : V2.state) (f : file_meta),
       In f (V2.lastFilesMeta (V2.mem s)) -> well_formed (fm_name f) ->
       exists pre m post,
         V2.lastFilesMeta (V2.mem s) = (pre ++ m :: post)%list
         /\ fm_name m = fm_name f
         /\ (forall x, In x pre -> fm_name x <> fm_name f)
         /\ Preview2.files_table_click (Some (data_name f)) s
            = Some {| preview_file := fm_name f;
                      preview_list :=
                        match fm_titles m with
                        | [] => [LiNone Preview2.notice]
                        | ts => map LiTitle ts
                        end |}).
Proof.
  split; intros s f Hin Hw.
  - destruct (find_first_by_name _ f Hin) as (pre & m & post & E & Em & Hp & Hf).
    exists pre, m, post. split; [exact E|]. split; [exact Em|].
    split; [exact Hp|].
    unfold Preview1.files_table_click, Preview1.showPreview, data_name.
    rewrite (decode_encode _ Hw). cbn [mbind option_bind].
    rewrite Hf. reflexivity.
  - destruct (find_first_by_name _ f Hin) as (pre & m & post & E & Em & Hp & Hf).
    exists pre, m, post. split; [exact E|]. split; [exact Em|].
    split; [exact Hp|].
    unfold Preview2.files_table_click, Preview2.showPreview, data_name.
    rewrite (decode_encode _ Hw). cbn [mbind option_bind].
    rewrite Hf. reflexivity.
Qed.

(** ** What the upload scans send and bring *)

Lemma form_files_append_files (fs : list file) :
  form_files (append_files fs) = fs.
Proof.
  induction fs as [|f fs IH]; [reflexivity|].
  unfold form_files in *. simpl. f_equal. exact IH.
Qed.

Lemma form_texts_append_files (key : string) (fs : list file) :
  form_texts key (append_files fs) = [].
Proof.
  induction fs as [|f fs IH]; [reflexivity|].
  unfold form_texts in *. simpl. exact IH.
Qed.

Lemma form_files_app (a b : list (string * form_value)) :
  form_files (a ++ b)%list = (form_files a ++ form_files b)%list.
Proof. unfold form_files. apply flat_map_app. Qed.

Lemma form_texts_app (key : string) (a b : list (string * form_value)) :
  form_texts key (a ++ b)%list
  = (form_texts key a ++ form_texts key b)%list.
Proof. unfold form_texts. apply flat_map_app. Qed.

Lemma form_files_whitelist (fs : list file) :
  form_files (V1.whitelist_entries ++ append_files fs)%list = fs
  /\ form_texts "whitelist[]" (V1.whitelist_entries ++ append_files fs)%list
     = V1.TITULOS_WHITELIST.
Proof.
  rewrite form_files_app, form_texts_app, form_files_append_files,
    form_texts_append_files.
  split; [reflexivity|]. rewrite app_nil_r. reflexivity.
Qed.

Lemma form_files_level (v : string) (fs : list file) :
  form_files (("level", FdText v) :: append_files fs) = fs
  /\ form_texts "level" (("level", FdText v) :: append_files fs) = [v].
Proof.
  change (("level", FdText v) :: append_files fs)
    with ([("level", FdText v)] ++ append_files fs)%list.
  rewrite form_files_app, form_texts_app, form_files_append_files,
    form_texts_append_files.
  split; reflexivity.
Qed.

(** X15. What an upload scan uploads: "subir .docx" sends every chosen
    file as it is, whatever its extension, while "subir carpeta" sends
    the chosen files whose name ends in ".docx" in any letter case, in
    their order; both send the 28 whitelist entries in variant 1, and
    variant 2 sends the level as the field [level]. *)
Theorem upload_scans_send :
  (forall s : V1.state, V1.files (V1.inp s) <> [] ->
     exists s' fd,
       V1.scanUpload s
       = V1.Awaiting s' {| url := "/api/scan-upload"; body := FormBody fd |}
                     V1.KScanUpload
       /\ form_files fd = V1.files (V1.inp s)
       /\ form_texts "whitelist[]" fd = V1.TITULOS_WHITELIST)
  /\ (forall s : V1.state, V1.folderInput (V1.inp s) <> [] ->
       exists s' fd,
         V1.scanUploadDir s
         = V1.Awaiting s' {| url := "/api/scan-upload";
                             body := FormBody fd |} V1.KScanUploadDir
         /\ form_files fd = List.filter V1.is_docx (V1.folderInput (V1.inp s))
         /\ form_texts "whitelist[]" fd = V1.TITULOS_WHITELIST)
  /\ (forall s : V2.state, V2.files (V2.inp s) <> [] ->
       exists s' fd,
         V2.scanUpload s
         = V2.Awaiting s' {| url := "/api/scan-upload";
                             body := FormBody fd |} V2.KScanUpload
         /\ form_files fd = V2.files (V2.inp s)
         /\ form_texts "level" fd = [V2.level (V2.inp s)]).
Proof.
  split; [|split]; intros s Hne.
  - unfold V1.scanUpload.
    cbn [V1.inp V1.set_whitelist V1.setBadges V1.drawFilesTable
         V1.set_files_table V1.set_badge_archivos V1.set_lastSource
         V1.set_uploadDirToken].
    destruct (V1.files (V1.inp s)) as [|f fs]; [contradiction|].
    eexists. eexists. split; [reflexivity|].
    apply form_files_whitelist.
  - unfold V1.scanUploadDir.
    cbn [V1.inp V1.set_whitelist V1.setBadges V1.drawFilesTable
         V1.set_files_table V1.set_badge_archivos V1.set_lastSource
         V1.set_uploadToken].
    destruct (V1.folderInput (V1.inp s)) as [|f fs]; [contradiction|].
    eexists. eexists. split; [reflexivity|].
    apply form_files_whitelist.
  - unfold V2.scanUpload.
    cbn [V2.inp V2.set_titles V2.setBadges V2.drawFilesTable
         V2.set_files_table V2.set_badges V2.set_lastSource].
    destruct (V2.files (V2.inp s)) as [|f fs]; [contradiction|].
    eexists. eexists. split; [reflexivity|].
    apply form_files_level.
Qed.



(** ** The theorems above at sample inputs *)

Lemma s1_is_valid : ~ invalid1 Sample.s1.
Proof.
  intros [[H _] | [[_ H] | [[H _] | [H _]]]]; vm_compute in H; discriminate H.
Qed.

Lemma s2_is_valid : ~ invalid2 Sample.s2.
Proof.
  intros [[_ H] | [[_ H] | [H _]]]; vm_compute in H; discriminate H.
Qed.

Lemma mergeNow_s1 :
  V1.mergeNow Sample.s1
  = V1.Awaiting (V1.log "Generando ZIP..." Sample.s1)
                (V1.merge_request Sample.payload1) (V1.KMerge "unificado").
Proof. vm_compute. reflexivity. Qed.

Lemma mergeNow_s2 :
  V2.mergeNow Sample.s2
  = V2.Awaiting (V2.log "Generando ZIP..." Sample.s2)
                (V2.merge_request Sample.payload2) (V2.KMerge "grouped").
Proof. vm_compute. reflexivity. Qed.

Lemma mergeNow_sends_iff_valid_witness :
  (~ invalid1 Sample.s1
   /\ exists p, V1.mergeNow Sample.s1
                = V1.Awaiting (V1.log "Generando ZIP..." Sample.s1)
                    (V1.merge_request p)
                    (V1.KMerge (V1.mode (V1.inp Sample.s1))))
  /\ (~ invalid2 Sample.s2
      /\ exists p, V2.mergeNow Sample.s2
                   = V2.Awaiting (V2.log "Generando ZIP..." Sample.s2)
                       (V2.merge_request p)
                       (V2.KMerge (V2.mode (V2.inp Sample.s2)))).
Proof.
  split.
  - split; [exact s1_is_valid|].
    exact (proj2 (proj1 mergeNow_sends_iff_valid Sample.s1) s1_is_valid).
  - split; [exact s2_is_valid|].
    exact (proj2 (proj2 mergeNow_sends_iff_valid Sample.s2) s2_is_valid).
Defined.

Lemma merge_can_be_repeated_witness :
  (V1.mergeNow Sample.s1
   = V1.Awaiting (V1.log "Generando ZIP..." Sample.s1)
                 (V1.merge_request Sample.payload1) (V1.KMerge "unificado")
   /\ V1.mergeNow
        (final (V1.resume (V1.KMerge "unificado")
                          (Resolved Sample.ok_response)
                          (V1.log "Generando ZIP..." Sample.s1)))
      = V1.Awaiting
          (V1.log "Generando ZIP..."
             (final (V1.resume (V1.KMerge "unificado")
                               (Resolved Sample.ok_response)
                               (V1.log "Generando ZIP..." Sample.s1))))
          (V1.merge_request Sample.payload1) (V1.KMerge "unificado"))
  /\ (V2.mergeNow Sample.s2
      = V2.Awaiting (V2.log "Generando ZIP..." Sample.s2)
                    (V2.merge_request Sample.payload2) (V2.KMerge "grouped")
      /\ V2.mergeNow
           (final (V2.resume (V2.KMerge "grouped") Rejected
                             (V2.log "Generando ZIP..." Sample.s2)))
         = V2.Awaiting
             (V2.log "Generando ZIP..."
                (final (V2.resume (V2.KMerge "grouped") Rejected
                                  (V2.log "Generando ZIP..." Sample.s2))))
             (V2.merge_request Sample.payload2) (V2.KMerge "grouped")).
Proof.
  split.
  - split; [exact mergeNow_s1|].
    exact (proj1 merge_can_be_repeated _ _ _ _
             (Resolved Sample.ok_response) mergeNow_s1).
  - split; [exact mergeNow_s2|].
    exact (proj2 merge_can_be_repeated _ _ _ _ Rejected mergeNow_s2).
Defined.



Lemma cleanup_is_final_witness :
  (V1.lastSource (V1.mem Sample.s1_dir) <> V1.SrcFolder
   /\ exists m, In m merge_prompts
        /\ V1.mergeNow
             (final (V1.cleanup_k (Resolved Sample.ok_response) Sample.s1_dir))
           = V1.Finished
               (V1.log m (final (V1.cleanup_k (Resolved Sample.ok_response)
                                              Sample.s1_dir))))
  /\ (V2.lastSource (V2.mem Sample.s2_up) <> V2.SrcFolder
      /\ exists m, In m merge_prompts
           /\ V2.mergeNow
                (final (V2.cleanup_k (Resolved Sample.ok_response)
                                     Sample.s2_up))
              = V2.Finished
                  (V2.log m (final (V2.cleanup_k (Resolved Sample.ok_response)
                                                 Sample.s2_up)))).
Proof.
  assert (N1 : V1.lastSource (V1.mem Sample.s1_dir) <> V1.SrcFolder)
    by discriminate.
  assert (N2 : V2.lastSource (V2.mem Sample.s2_up) <> V2.SrcFolder)
    by discriminate.
  split.
  - split; [exact N1|].
    exact (proj2 (proj1 cleanup_is_final Sample.ok_response Sample.s1_dir) N1).
  - split; [exact N2|].
    exact (proj2 (proj2 cleanup_is_final Sample.ok_response Sample.s2_up) N2).
Defined.

Lemma cleanup_posts_one_token_witness :
  V1.uploadToken (V1.mem (V1.now Sample.w1_overlapped)) = JsStr "A"
  /\ "A" <> ""
  /\ V1.uploadDirToken (V1.mem (V1.now Sample.w1_overlapped)) = JsStr "B"
  /\ V1.cleanup (V1.now Sample.w1_overlapped)
     = V1.Awaiting (V1.now Sample.w1_overlapped) (cleanup_request "A")
                   V1.KCleanup
  /\ V1.uploadDirToken
       (V1.mem (V1.atomic V1.Cleanup (Resolved Sample.ok_response)
                          (V1.now Sample.w1_overlapped))) = JsNull.
Proof.
  assert (N : "A" <> "") by discriminate.
  destruct (cleanup_posts_one_token (V1.now Sample.w1_overlapped) "A" "B"
              Sample.ok_response eq_refl N eq_refl) as (A & B & _).
  split; [reflexivity|]. split; [exact N|]. split; [reflexivity|].
  split; [exact A | exact B].
Defined.

Lemma merge_titles_within_whitelist_witness :
  V1.mergeNow (V1.now (V1.run [] (V1.boot Sample.page1 Sample.form1)))
  = V1.Awaiting (V1.log "Generando ZIP..." Sample.s1)
                (V1.merge_request Sample.payload1) (V1.KMerge "unificado")
  /\ exists p ts, body (V1.merge_request Sample.payload1) = JsonBody p
       /\ p !! "titles" = Some (JStrings ts)
       /\ forall t, In t ts -> In t V1.TITULOS_WHITELIST.
Proof.
  split; [exact mergeNow_s1|].
  exact (proj2 (merge_titles_within_whitelist Sample.page1 Sample.form1 []
                  _ _ _ mergeNow_s1)).
Defined.



Lemma merge_and_cleanup_use_one_token_witness :
  V1.no_overlap Sample.in_turn (V1.boot Sample.page1 Sample.form1) = true
  /\ V1.mergeNow (V1.now (V1.run Sample.in_turn
                                 (V1.boot Sample.page1 Sample.form1)))
     = V1.Awaiting (V1.log "Generando ZIP..." Cases.s1_turned)
                   (V1.merge_request Cases.payload_b) (V1.KMerge "unificado")
  /\ carries_token (V1.merge_request Cases.payload_b) "B"
  /\ V1.cleanup (V1.now (V1.run Sample.in_turn
                                (V1.boot Sample.page1 Sample.form1)))
     = V1.Awaiting (V1.now (V1.run Sample.in_turn
                                   (V1.boot Sample.page1 Sample.form1)))
                   (cleanup_request "B") V1.KCleanup.
Proof.
  assert (H : V1.no_overlap Sample.in_turn
                (V1.boot Sample.page1 Sample.form1) = true)
    by (vm_compute; reflexivity).
  assert (M : V1.mergeNow (V1.now (V1.run Sample.in_turn
                                     (V1.boot Sample.page1 Sample.form1)))
              = V1.Awaiting (V1.log "Generando ZIP..." Cases.s1_turned)
                  (V1.merge_request Cases.payload_b)
                  (V1.KMerge "unificado")) by (vm_compute; reflexivity).
  assert (C : carries_token (V1.merge_request Cases.payload_b) "B").
  { exists Cases.payload_b. split; [reflexivity|]. vm_compute. reflexivity. }
  split; [exact H|]. split; [exact M|]. split; [exact C|].
  exact (proj2 (merge_and_cleanup_use_one_token Sample.page1 Sample.form1
                  Sample.in_turn H) _ _ _ _ M C).
Defined.

Lemma download_named_by_mode_at_click_witness :
  (V1.mergeNow (V1.now (V1.boot Sample.page1 Sample.form1))
   = V1.Awaiting (V1.log "Generando ZIP..." Sample.s1)
                 (V1.merge_request Sample.payload1) (V1.KMerge "unificado")
   /\ forallb passive1 [V1.Fill Cases.form1_grouped] = true
   /\ V1.downloads
        (V1.doc (V1.now
           (V1.step
              (V1.Settle (length (V1.inflight
                                    (V1.boot Sample.page1 Sample.form1)))
                         (Resolved Sample.ok_response))
              (V1.run [V1.Fill Cases.form1_grouped]
                 (V1.step (V1.Click V1.MergeNow)
                          (V1.boot Sample.page1 Sample.form1))))))
      = ["unificado.zip"])
  /\ (V2.mergeNow (V2.now (V2.boot Sample.page2 Sample.form2))
      = V2.Awaiting (V2.log "Generando ZIP..." Sample.s2)
                    (V2.merge_request Sample.payload2) (V2.KMerge "grouped")
      /\ forallb passive2 [V2.Fill Cases.form2_unified] = true
      /\ V2.downloads
           (V2.doc (V2.now
              (V2.step
                 (V2.Settle (length (V2.inflight
                                       (V2.boot Sample.page2 Sample.form2)))
                            (Resolved Sample.ok_response))
                 (V2.run [V2.Fill Cases.form2_unified]
                    (V2.step (V2.Click V2.MergeNow)
                             (V2.boot Sample.page2 Sample.form2))))))
         = ["por_titulo.zip"]).
Proof.
  split.
  - split; [exact mergeNow_s1|]. split; [reflexivity|].
    exact (proj1 download_named_by_mode_at_click
             (V1.boot Sample.page1 Sample.form1) _ _ _
             [V1.Fill Cases.form1_grouped] Sample.ok_response
             mergeNow_s1 eq_refl).
  - split; [exact mergeNow_s2|]. split; [reflexivity|].
    exact (proj2 download_named_by_mode_at_click
             (V2.boot Sample.page2 Sample.form2) _ _ _
             [V2.Fill Cases.form2_unified] Sample.ok_response
             mergeNow_s2 eq_refl).
Defined.

Lemma preview_of_row_witness :
  (In Cases.plan2 (V1.lastFilesMeta (V1.mem Cases.s1_plans))
   /\ well_formed (fm_name Cases.plan2)
   /\ exists pre m post,
        V1.lastFilesMeta (V1.mem Cases.s1_plans) = (pre ++ m :: post)%list
        /\ fm_name m = fm_name Cases.plan2
        /\ (forall x, In x pre -> fm_name x <> fm_name Cases.plan2)
        /\ Preview1.files_table_click (Some (data_name Cases.plan2))
                                      Cases.s1_plans
           = Some {| preview_file := fm_name Cases.plan2;
                     preview_list :=
                       match fm_titles m with
                       | [] => [LiNone Preview1.notice]
                       | ts => map LiTitle ts
                       end |})
  /\ (In Sample.meta_a (V2.lastFilesMeta (V2.mem Cases.s2_plans))
      /\ well_formed (fm_name Sample.meta_a)
      /\ exists pre m post,
           V2.lastFilesMeta (V2.mem Cases.s2_plans) = (pre ++ m :: post)%list
           /\ fm_name m = fm_name Sample.meta_a
           /\ (forall x, In x pre -> fm_name x <> fm_name Sample.meta_a)
           /\ Preview2.files_table_click (Some (data_name Sample.meta_a))
                                         Cases.s2_plans
              = Some {| preview_file := fm_name Sample.meta_a;
                        preview_list :=
                          match fm_titles m with
                          | [] => [LiNone Preview2.notice]
                          | ts => map LiTitle ts
                          end |}).
Proof.
  assert (I1 : In Cases.plan2 (V1.lastFilesMeta (V1.mem Cases.s1_plans)))
    by (right; right; left; reflexivity).
  assert (W1 : well_formed (fm_name Cases.plan2)) by reflexivity.
  assert (I2 : In Sample.meta_a (V2.lastFilesMeta (V2.mem Cases.s2_plans)))
    by (left; reflexivity).
  assert (W2 : well_formed (fm_name Sample.meta_a)) by reflexivity.
  split.
  - split; [exact I1|]. split; [exact W1|].
    exact (proj1 preview_of_row Cases.s1_plans Cases.plan2 I1 W1).
  - split; [exact I2|]. split; [exact W2|].
    exact (proj2 preview_of_row Cases.s2_plans Sample.meta_a I2 W2).
Defined.

Lemma upload_scans_send_witness :
  (V1.files (V1.inp Cases.s1_mixed) <> []
   /\ exists s' fd,
        V1.scanUpload Cases.s1_mixed
        = V1.Awaiting s' {| url := "/api/scan-upload"; body := FormBody fd |}
                      V1.KScanUpload
        /\ form_files fd = V1.files (V1.inp Cases.s1_mixed)
        /\ form_texts "whitelist[]" fd = V1.TITULOS_WHITELIST)
  /\ (V1.folderInput (V1.inp Cases.s1_mixed) <> []
      /\ exists s' fd,
           V1.scanUploadDir Cases.s1_mixed
           = V1.Awaiting s' {| url := "/api/scan-upload";
                               body := FormBody fd |} V1.KScanUploadDir
           /\ form_files fd
              = List.filter V1.is_docx (V1.folderInput (V1.inp Cases.s1_mixed))
           /\ form_texts "whitelist[]" fd = V1.TITULOS_WHITELIST)
  /\ (V2.files (V2.inp Sample.s2) <> []
      /\ exists s' fd,
           V2.scanUpload Sample.s2
           = V2.Awaiting s' {| url := "/api/scan-upload";
                               body := FormBody fd |} V2.KScanUpload
           /\ form_files fd = V2.files (V2.inp Sample.s2)
           /\ form_texts "level" fd = [V2.level (V2.inp Sample.s2)]).
Proof.
  assert (N1 : V1.files (V1.inp Cases.s1_mixed) <> []) by discriminate.
  assert (N2 : V1.folderInput (V1.inp Cases.s1_mixed) <> []) by discriminate.
  assert (N3 : V2.files (V2.inp Sample.s2) <> []) by discriminate.
  destruct upload_scans_send as (A & B & C).
  split; [|split].
  - split; [exact N1 | exact (A _ N1)].
  - split; [exact N2 | exact (B _ N2)].
  - split; [exact N3 | exact (C _ N3)].
Defined.



(** ** Evaluations *)

Example show_Z_28 : show_Z 28 = "28".
Proof. reflexivity. Qed.

Example show_Z_0 : show_Z 0 = "0".
Proof. reflexivity. Qed.

Example trim_folder : trim "  /srv/docs  " = "/srv/docs".
Proof. reflexivity. Qed.

Example trim_blank : trim "   " = "".
Proof. reflexivity. Qed.

Example endsWith_docx : endsWith (toLowerCase "Plan.DOCX") ".docx" = true.
Proof. reflexivity. Qed.

Example endsWith_txt : endsWith (toLowerCase "notes.txt") ".docx" = false.
Proof. reflexivity. Qed.

Example is_docx_any_case :
  map V1.is_docx [Sample.a_docx; Sample.B_DOCX; Sample.notes_txt]
  = [true; true; false].
Proof. reflexivity. Qed.

Example parseInt_2 : parseInt " 2" = Some 2.
Proof. reflexivity. Qed.

Example parseInt_NaN : parseInt "dos" = None.
Proof. reflexivity. Qed.

Example whitelist_length : length V1.TITULOS_WHITELIST = 28%nat.
Proof. reflexivity. Qed.

(** The first title ends in a zero-width space (three bytes), which
    [trim] keeps. *)
Example whitelist_head :
  (String.length <$> head V1.TITULOS_WHITELIST) = Some 19%nat
  /\ (trim <$> head V1.TITULOS_WHITELIST) = head V1.TITULOS_WHITELIST.
Proof. split; reflexivity. Qed.

Example archivos_text_1 : archivos_text 1 = "1 archivo".
Proof. reflexivity. Qed.

Example archivos_text_2 : archivos_text 2 = "2 archivos".
Proof. reflexivity. Qed.

(** The scenario of the specification in variant 1: the badge says two
    files, the table has one row. *)
Example scenario_variant1 :
  let s' := V1.atomic V1.ScanFolder (Resolved Sample.two_counted) Sample.s1 in
  V1.badge_archivos (V1.doc s') = "2 archivos"
  /\ V1.files_table (V1.doc s') = [TrFile "a.docx" 1 "bg-primary"].
Proof. split; reflexivity. Qed.

(** The same reply in variant 2, which brings no titles: the handler
    stops, badge and table keep what the start of the scan put there. *)
Example scenario_variant2 :
  let s' := V2.atomic V2.ScanFolder (Resolved Sample.two_counted) Sample.s2 in
  V2.badge_archivos (V2.doc s') = "0 archivos"
  /\ V2.files_table (V2.doc s') = [TrNoData]
  /\ V2.lastFilesMeta (V2.mem s') = [Sample.meta_a].
Proof. repeat split. Qed.

Example merge_download :
  V1.downloads
    (V1.doc (V1.atomic V1.MergeNow (Resolved Sample.ok_response) Sample.s1))
  = ["unificado.zip"].
Proof. reflexivity. Qed.

Example encode_name :
  encodeURIComponent "Plan á & b.docx" = "Plan%20%C3%A1%20%26%20b.docx".
Proof. reflexivity. Qed.

Example decode_name :
  decodeURIComponent "Plan%20%C3%A1%20%26%20b.docx" = Some "Plan á & b.docx".
Proof. reflexivity. Qed.

(** A lone [%], an escape cut short, a byte that starts no character
    and an overlong form are refused. *)
Example decode_refused :
  map decodeURIComponent ["%"; "a%2"; "%E9"; "%C0%80"]
  = [None; None; None; None].
Proof. reflexivity. Qed.

(** With two entries of one name the button of the second previews the
    first. *)
Example preview_of_second_plan :
  Preview1.files_table_click (Some (data_name Cases.plan2)) Cases.s1_plans
  = Some {| preview_file := "Plan á & b.docx";
            preview_list := [LiTitle "T1"] |}.
Proof. vm_compute. reflexivity. Qed.

Example preview_of_unknown :
  Preview1.files_table_click (Some "otro.docx") Cases.s1_plans
  = Some {| preview_file := "otro.docx";
            preview_list := [LiNone Preview1.notice] |}.
Proof. vm_compute. reflexivity. Qed.
